(** * Weather dashboard: classification, window selection, advisories

    A shallow embedding of [app.py], the Streamlit weather dashboard.  The
    script fetches a forecast payload, picks a theme from the WMO weather
    code, selects the hourly window that starts "now", derives a friendly
    message and a list of alerts, and renders cards, charts and a table.

    Modelling conventions.
    - A JSON number is a rational [Q]; a pandas cell of a float column is a
      [num], a rational or [NaN] (the missing value, [pd.notna] is false on
      it).  Every ordering comparison with [NaN] is false, as in Python.
    - A timestamp is a [Z], seconds since the epoch; [timedelta(hours=h)] is
      [3600 * h] seconds.  Parsing of ISO strings by [pd.to_datetime] is not
      part of the model: the payload carries the timestamps themselves.
    - A dict used as a lookup table is a [gmap]; a [DataFrame] is the ordered
      list of its named columns, each a datetime column or a float column.
      The API sends timestamps under [time], [sunrise] and [sunset] and
      numbers elsewhere; where a step of the model finds a column of the
      other kind it reports a [TypeError] at that step, which marks the edge
      of the payloads modelled.
    - Python exceptions are values of [exn]; a computation that may raise
      returns a [result].  The script itself runs in [St], an exception monad
      that also threads the page written so far, so that a run that raises
      still shows what was written before. *)

From Stdlib Require Import ZArith QArith Qround String List Lia Lqa.
From stdpp Require Import base gmap strings list sorting.

Open Scope string_scope.
Open Scope list_scope.
Open Scope Z_scope.

(** ** Exceptions and results *)

Inductive exn : Type :=
| NameError
| KeyError
| IndexError
| TypeError
| ValueError
| AttributeError.

Inductive result (A : Type) : Type :=
| Ok (a : A)
| Raise (e : exn).

Arguments Ok {A} a.
Arguments Raise {A} e.

#[global] Instance result_ret : MRet result := fun A a => Ok a.

#[global] Instance result_bind : MBind result := fun A B k r =>
  match r with
  | Ok a => k a
  | Raise e => Raise e
  end.

(** ** Numbers *)

Inductive num : Type :=
| Fin (q : Q)
| NaN.

(** [x > k], [x < k] and [x >= k] against a literal threshold [k]. *)
Definition num_gt (x : num) (k : Q) : bool :=
  match x with
  | Fin q => negb (Qle_bool q k)
  | NaN => false
  end.

Definition num_lt (x : num) (k : Q) : bool :=
  match x with
  | Fin q => negb (Qle_bool k q)
  | NaN => false
  end.

Definition num_ge (x : num) (k : Q) : bool :=
  match x with
  | Fin q => Qle_bool k q
  | NaN => false
  end.

(** [int(x)] on a finite float truncates toward zero. *)
Definition py_int (q : Q) : Z :=
  if Qle_bool 0 q then Qfloor q else Qceiling q.

(** ** Themes and WMO codes *)

Record Theme : Type := mkTheme {
  c1 : string;
  c2 : string;
  c3 : string;
  emoji : string;
  name : string
}.

Definition CONDITION_THEMES : gmap string Theme :=
  list_to_map [
    ("clear",  mkTheme "#657c87" "#9e978a" "#c78868" "☀️" "Clear");
    ("cloudy", mkTheme "#90A5BA" "#5B7BAA" "#124E82" "⛅" "Cloudy");
    ("fog",    mkTheme "#ccb297" "#ae9377" "#231b12" "🌫️" "Fog");
    ("rain",   mkTheme "#4e5d7a" "#5b7ac0" "#8ec5fc" "🌧️" "Rain");
    ("storm",  mkTheme "#2d3748" "#4b5563" "#111827" "⛈️" "Storm");
    ("snow",   mkTheme "#92e6f6" "#c3e7ff" "#ffffff" "❄️" "Snow")
  ].

(** WMO weather codes mapping -> simple condition key *)
Definition WMO_TABLE : list (Z * string) := [
  (0, "clear");
  (1, "cloudy"); (2, "cloudy"); (3, "cloudy");
  (45, "fog"); (48, "fog");
  (51, "rain"); (53, "rain"); (55, "rain");
  (56, "rain"); (57, "rain");
  (61, "rain"); (63, "rain"); (65, "rain");
  (66, "rain"); (67, "rain");
  (71, "snow"); (73, "snow"); (75, "snow");
  (77, "snow");
  (80, "rain"); (81, "rain"); (82, "rain");
  (85, "snow"); (86, "snow");
  (95, "storm"); (96, "storm"); (99, "storm")
].

Definition WMO_MAP : gmap Z string := list_to_map WMO_TABLE.

(** [WMO_MAP.get(wmo_code, "cloudy")] *)
Definition condition_key (wmo_code : Z) : string :=
  default "cloudy" (WMO_MAP !! wmo_code).

(** [CONDITION_THEMES[key]]: a missing key raises [KeyError]. *)
Definition theme_of_key (key : string) : result Theme :=
  match CONDITION_THEMES !! key with
  | Some theme => Ok theme
  | None => Raise KeyError
  end.

(** ** Data frames

    A [DataFrame] built from a dict of lists: the columns in insertion
    order, each a datetime column or a float column.  pandas refuses to
    build a frame whose columns differ in length, which [df_wf] records. *)

Inductive cell : Type :=
| CT (t : Z)
| CN (x : num).

Inductive column : Type :=
| TimeCol (l : list Z)
| NumCol (l : list num).

Abbreviation DataFrame := (list (string * column)).

Definition col_len (c : column) : nat :=
  match c with
  | TimeCol l => length l
  | NumCol l => length l
  end.

Definition col_cells (c : column) : list cell :=
  match c with
  | TimeCol l => map CT l
  | NumCol l => map CN l
  end.

(** Number of rows (the length of the index). *)
Definition nrows (df : DataFrame) : nat :=
  match df with
  | [] => 0%nat
  | (_, c) :: _ => col_len c
  end.

Definition df_wf (df : DataFrame) : Prop :=
  NoDup (map fst df) /\ Forall (fun nc => col_len nc.2 = nrows df) df.

(** [df.columns] *)
Definition df_columns (df : DataFrame) : list string := map fst df.

(** [df.empty]: no columns or no rows. *)
Definition df_empty (df : DataFrame) : bool :=
  match df with
  | [] => true
  | _ => Nat.eqb (nrows df) 0
  end.

(** [c in df] and [c in df.columns] *)
Definition df_has (c : string) (df : DataFrame) : bool :=
  bool_decide (c ∈ df_columns df).

(** [df[c]] *)
Fixpoint df_col (c : string) (df : DataFrame) : result column :=
  match df with
  | [] => Raise KeyError
  | (n, col) :: rest => if String.eqb n c then Ok col else df_col c rest
  end.

(** Selection by a boolean mask aligned with the index. *)
Fixpoint filter_mask {A} (mask : list bool) (l : list A) : list A :=
  match mask, l with
  | b :: mask', x :: l' =>
      if b then x :: filter_mask mask' l' else filter_mask mask' l'
  | _, _ => []
  end.

Definition col_filter (mask : list bool) (c : column) : column :=
  match c with
  | TimeCol l => TimeCol (filter_mask mask l)
  | NumCol l => NumCol (filter_mask mask l)
  end.

(** [df.loc[mask]] *)
Definition df_loc (mask : list bool) (df : DataFrame) : DataFrame :=
  map (fun nc => (nc.1, col_filter mask nc.2)) df.

Definition col_head (n : nat) (c : column) : column :=
  match c with
  | TimeCol l => TimeCol (take n l)
  | NumCol l => NumCol (take n l)
  end.

(** [df.head(n)] *)
Definition df_head (n : nat) (df : DataFrame) : DataFrame :=
  map (fun nc => (nc.1, col_head n nc.2)) df.

(** [s.iloc[0]] on a column *)
Definition col_iloc0 (c : column) : result cell :=
  match col_cells c with
  | [] => Raise IndexError
  | x :: _ => Ok x
  end.

(** [df.iloc[0][c]]: the first row is taken first, then the field. *)
Definition df_iloc0 (df : DataFrame) (c : string) : result cell :=
  if Nat.eqb (nrows df) 0 then Raise IndexError
  else col ← df_col c df; col_iloc0 col.

(** The number held by a cell of a float column, as [float(x)] and the
    numeric comparisons and formats read it; a timestamp is not a number. *)
Definition cell_num (x : cell) : result num :=
  match x with
  | CN v => Ok v
  | CT _ => Raise TypeError
  end.

(** [pd.to_datetime(s)] on a column.  The payload carries parsed
    timestamps, so a datetime column is returned as it is; a float column
    where timestamps are expected is outside the payloads modelled and is
    reported as a [TypeError]. *)
Definition to_datetime (c : column) : result (list Z) :=
  match c with
  | TimeCol l => Ok l
  | NumCol _ => Raise TypeError
  end.

Definition Qmax (a b : Q) : Q := if Qle_bool a b then b else a.

(** [s.max()] skips missing values; with none left the result is [NaN]. *)
Fixpoint num_max (l : list num) : num :=
  match l with
  | [] => NaN
  | NaN :: l' => num_max l'
  | Fin q :: l' =>
      match num_max l' with
      | NaN => Fin q
      | Fin m => Fin (Qmax q m)
      end
  end.

Definition col_max (c : column) : result num :=
  match c with
  | NumCol l => Ok (num_max l)
  | TimeCol _ => Raise TypeError
  end.

(** ** The payload *)

(** [data["current_weather"]], with [None] for a key that is absent. *)
Record Current : Type := mkCurrent {
  cw_temperature : option Q;
  cw_windspeed : option Q;
  cw_winddirection : option Q;
  cw_weathercode : option Z;
  cw_time : option Z
}.

(** [{}] *)
Definition no_current : Current := mkCurrent None None None None None.

Record Payload : Type := mkPayload {
  current_weather : option Current;
  hourly_data : option DataFrame;
  daily_data : option DataFrame
}.

(** ** Forecast window (script lines 238-242) *)

(** [(hourly["time"] >= now) & (hourly["time"] < now + timedelta(hours=hours_ahead))] *)
Definition window_mask (times : list Z) (now hours_ahead : Z) : list bool :=
  zip_with andb
    (map (fun t => now <=? t) times)
    (map (fun t => t <? now + 3600 * hours_ahead) times).

(** [hourly.loc[mask].copy()] for a given [now]. *)
Definition select_window (hourly : DataFrame) (now hours_ahead : Z)
  : result DataFrame :=
  col ← df_col "time" hourly;
  times ← to_datetime col;
  mret (df_loc (window_mask times now hours_ahead) hourly).

(** [pd.to_datetime(current["time"]) if current.get("time") else hourly["time"].iloc[0]] *)
Definition resolve_now (current : Current) (hourly : DataFrame) : result Z :=
  match cw_time current with
  | Some t => Ok t
  | None =>
      col ← df_col "time" hourly;
      times ← to_datetime col;
      match times with
      | [] => Raise IndexError
      | t :: _ => Ok t
      end
  end.

(** The body of [if not hourly.empty:] up to the assignment of [hr]. *)
Definition hourly_window (current : Current) (hourly : DataFrame)
    (hours_ahead : Z) : result DataFrame :=
  col ← df_col "time" hourly;
  _ ← to_datetime col;
  now ← resolve_now current hourly;
  select_window hourly now hours_ahead.

(** ** Friendly message (script lines 251-279) *)

Definition weather_message (temp wind rain_prob : num) : string :=
  if num_gt temp 38 then
    "🔥 It's scorching outside! Better stay indoors with a cool drink."
  else if num_gt temp 30 then
    "☀️ It's quite sunny today. Don't forget your sunglasses!"
  else if num_lt temp 10 then
    "❄️ Brrr! It's freezing out there. Dress warmly and sip something hot."
  else if num_lt temp 18 then
    "🌤️ It's a cool day, perfect for a walk."
  else if num_gt wind 40 then
    "🌪️ Strong winds are blowing. Secure loose objects outside!"
  else if num_gt wind 20 then
    "💨 Breezy day! A cap might fly away."
  else if num_gt rain_prob 70 then
    "🌧️ High chance of rain — take an umbrella!"
  else if num_gt rain_prob 40 then
    "🌦️ You might get some showers later today."
  else
    "🌈 Weather looks pleasant. Enjoy your day!".

(** [current[key]]: a missing key raises [KeyError]. *)
Definition getitem {A} (field : option A) : result A :=
  match field with
  | Some v => Ok v
  | None => Raise KeyError
  end.

(** [hr.iloc[0]["precipitation_probability"] if "precipitation_probability" in hr else 0] *)
Definition rain_probability (hr : DataFrame) : result num :=
  if df_has "precipitation_probability" hr then
    x ← df_iloc0 hr "precipitation_probability"; cell_num x
  else Ok (Fin 0).

Definition friendly_message (current : Current) (hr : DataFrame)
  : result string :=
  rain_prob ← rain_probability hr;
  temp ← getitem (cw_temperature current);
  wind ← getitem (cw_windspeed current);
  mret (weather_message (Fin temp) (Fin wind) rain_prob).

(** ** Alerts (script lines 284-306)

    [alerts] is a list the script appends to; each check takes the list so
    far and returns it, extended or not. *)

Definition SEVERE_HEAT : string :=
  "🔥 Severe Heat Alert: Stay hydrated, avoid peak sun.".
Definition HEAT_CAUTION : string :=
  "🥵 Heat Caution: Wear light clothing and drink water.".
Definition GALE_WARNING : string :=
  "🌬️ Gale Warning: Secure loose items, avoid high places.".
Definition HIGH_WIND : string :=
  "💨 High Wind: Be cautious outdoors.".
Definition RAIN_NEXT6 : string :=
  "🌧️ High chance of rain in next 6 hours. Carry an umbrella.".
Definition EXTREME_UV : string :=
  "☀️ Extreme UV today. Use SPF 30+, hat & sunglasses.".

Definition append (alerts : list string) (a : string) : list string :=
  alerts ++ [a].

Definition heat_check (t_now : num) (alerts : list string) : list string :=
  if num_ge t_now 40 then append alerts SEVERE_HEAT
  else if num_ge t_now 35 then append alerts HEAT_CAUTION
  else alerts.

Definition wind_check (ws_now : num) (alerts : list string) : list string :=
  if num_ge ws_now 75 then append alerts GALE_WARNING
  else if num_ge ws_now 50 then append alerts HIGH_WIND
  else alerts.

Definition rain_check (rain_next6 : num) (alerts : list string)
  : list string :=
  if num_ge rain_next6 70 then append alerts RAIN_NEXT6 else alerts.

Definition uv_check (uv_today : num) (alerts : list string) : list string :=
  if num_ge uv_today 8 then append alerts EXTREME_UV else alerts.

(** [float(hr.iloc[0]["apparent_temperature"]) if "apparent_temperature" in hr
     else float(current.get("temperature", 0))] *)
Definition t_now (hr : DataFrame) (current : Current) : result num :=
  if df_has "apparent_temperature" hr then
    x ← df_iloc0 hr "apparent_temperature"; cell_num x
  else Ok (Fin (default 0%Q (cw_temperature current))).

(** [float(current.get("windspeed", 0))] *)
Definition ws_now (current : Current) : num :=
  Fin (default 0%Q (cw_windspeed current)).

(** [hr.head(6)["precipitation_probability"].max() if "precipitation_probability" in hr else 0] *)
Definition rain_next6 (hr : DataFrame) : result num :=
  if df_has "precipitation_probability" hr then
    col ← df_col "precipitation_probability" (df_head 6 hr); col_max col
  else Ok (Fin 0).

(** The whole alerts section, given the frame bound to [hr]. *)
Definition alerts (hr : DataFrame) (current : Current) (daily : DataFrame)
  : result (list string) :=
  let alerts := [] in
  if negb (df_empty hr) then
    t ← t_now hr current;
    let alerts := heat_check t alerts in
    let alerts := wind_check (ws_now current) alerts in
    r ← rain_next6 hr;
    let alerts := rain_check r alerts in
    (* UV index from today's daily *)
    if negb (df_empty daily) && df_has "uv_index_max" daily then
      x ← df_iloc0 daily "uv_index_max";
      uv_today ← cell_num x;
      mret (uv_check uv_today alerts)
    else Ok alerts
  else Ok alerts.

(** The UV reading of the alerts section (lines 303-304):
    [float(daily.iloc[0]["uv_index_max"])] under the guard
    [not daily.empty and "uv_index_max" in daily], and no reading when the
    guard fails. *)
Definition uv_today (daily : DataFrame) : result (option num) :=
  if negb (df_empty daily) && df_has "uv_index_max" daily then
    x ← df_iloc0 daily "uv_index_max";
    uv_today ← cell_num x;
    mret (Some uv_today)
  else Ok None.

(** The four checks in the order the script runs them, on readings already
    taken: what the specification calls [computeAlerts].  The UV reading is
    absent when the guard on [daily] fails. *)
Definition computeAlerts (t w r : num) (uv : option num) : list string :=
  let alerts := rain_check r (wind_check w (heat_check t [])) in
  match uv with
  | Some u => uv_check u alerts
  | None => alerts
  end.

(** ** The page

    What the script writes with [st.markdown], [st.info] and the like, in
    order.  Formatted strings keep the value and its format. *)

Inductive piece : Type :=
| Lit (s : string)
| Number (spec : string) (x : num)
| Time (fmt : string) (t : Z).

Abbreviation text := (list piece).

Inductive widget : Type :=
| ThemeStyle (c1 c2 c3 : string)
| HeaderBand (emoji title : string) (subtitle : text)
| GlassMetric (title : string) (value : text)
| Info (body : string)
| Warning (body : string)
| Subheader (body : string)
| Markdown (body : string)
| LineChart (title : string) (y : list string) (frame : DataFrame)
| BarChart (title : string) (y : string) (frame : DataFrame)
| RainBar (next_prob : Z)
| Table (frame : DataFrame)
| Caption (body : string).

(** A script step: it may raise, and it extends the page. *)
Definition St (A : Type) : Type := list widget -> list widget * result A.

#[global] Instance St_ret : MRet St := fun A a page => (page, Ok a).

#[global] Instance St_bind : MBind St := fun A B k m page =>
  match m page with
  | (page', Ok a) => k a page'
  | (page', Raise e) => (page', Raise e)
  end.

Definition emit (w : widget) : St unit := fun page => (page ++ [w], Ok tt).

Definition lift {A} (r : result A) : St A := fun page => (page, r).

(** A variable of the script that an earlier branch may have left unbound. *)
Definition read_var {A} (v : option A) : St A :=
  lift (match v with Some a => Ok a | None => Raise NameError end).

Definition set_theme_from_code (wmo_code : Z) : St Theme :=
  let key := condition_key wmo_code in
  theme ← lift (theme_of_key key);
  _ ← emit (ThemeStyle (c1 theme) (c2 theme) (c3 theme));
  mret theme.

Definition glass_metric (title : string) (value : text) : St unit :=
  emit (GlassMetric title value).

Definition header_band (emoji title : string) (subtitle : text) : St unit :=
  emit (HeaderBand emoji title subtitle).

Record Geo : Type := mkGeo {
  geo_name : string;
  geo_country : string
}.

(** [int(current.get("weathercode", 1))] *)
Definition theme_code (current : Current) : Z :=
  default 1 (cw_weathercode current).

(** [pd.to_datetime(current.get("time")).strftime(...)]: [to_datetime(None)]
    is [None], which has no [strftime]. *)
Definition local_time (current : Current) : result text :=
  match cw_time current with
  | Some t => Ok [Time "%a, %d %b %Y • %I:%M %p" t]
  | None => Raise AttributeError
  end.

(** [f"{current.get(key,'–')}"] *)
Definition get_or_dash (field : option Q) : piece :=
  match field with
  | Some q => Number "" (Fin q)
  | None => Lit "–"
  end.

(** ** The script, from the fetched payload on (lines 208-405)

    The sections follow the banners of the script.  The frames built by
    [pd.DataFrame(data.get("hourly", {}))] and its [daily] twin are taken
    from the payload as they are, an absent key giving the frame without
    columns. *)

(** Theme + header *)
Definition theme_and_header (geo : Geo) (current : Current) : St unit :=
  theme ← set_theme_from_code (theme_code current);
  updated ← lift (local_time current);
  header_band (emoji theme)
    (geo_name geo +:+ ", " +:+ geo_country geo +:+ " — " +:+ name theme)
    (Lit "Last updated: " :: updated).

(** Current Conditions (Cards) *)
Definition current_cards (current : Current) : St unit :=
  _ ← glass_metric "Temperature"
        [get_or_dash (cw_temperature current); Lit " °C"];
  _ ← glass_metric "Feels Like" [Lit "–"];
  _ ← glass_metric "Wind Speed"
        [get_or_dash (cw_windspeed current); Lit " km/h"];
  glass_metric "Wind Direction"
    [get_or_dash (cw_winddirection current); Lit "°"].

(** [if not hourly.empty: ...]: the window, the Feels Like card and the
    friendly message.  The result is the binding of [hr], which the script
    makes only inside the branch. *)
Definition hourly_section (current : Current) (hourly : DataFrame)
    (hours_ahead : Z) : St (option DataFrame) :=
  if negb (df_empty hourly) then
    hr ← lift (hourly_window current hourly hours_ahead);
    _ ← (if df_has "apparent_temperature" hourly && negb (df_empty hr) then
           x ← lift (df_iloc0 hr "apparent_temperature");
           feels_now ← lift (cell_num x);
           glass_metric "Feels Like" [Number ".1f" feels_now; Lit " °C"]
         else mret tt);
    msg ← lift (friendly_message current hr);
    _ ← emit (Info msg);
    mret (Some hr)
  else mret None.

Fixpoint for_each {A} (l : list A) (body : A -> St unit) : St unit :=
  match l with
  | [] => mret tt
  | a :: l' => _ ← body a; for_each l' body
  end.

(** Alerts (Heat / Wind / Rain / UV) *)
Definition alerts_section (hr : option DataFrame) (current : Current)
    (daily : DataFrame) : St unit :=
  hr ← read_var hr;
  found ← lift (alerts hr current daily);
  for_each found (fun a => emit (Warning a)).

(** [hr.rename(columns={...})] *)
Definition PLOT_LABELS : gmap string string :=
  list_to_map [
    ("temperature_2m", "Air Temperature (°C)");
    ("apparent_temperature", "Feels Like (°C)");
    ("precipitation_probability", "Precipitation Probability (%)");
    ("windspeed_10m", "Wind Speed (km/h)")
  ].

Definition df_rename (labels : gmap string string) (df : DataFrame)
  : DataFrame :=
  map (fun nc => (default nc.1 (labels !! nc.1), nc.2)) df.

(** Charts: Temperature (air vs feels), Precip %, Wind speed *)
Definition charts_section (hr : option DataFrame) : St unit :=
  hr ← read_var hr;
  if negb (df_empty hr) then
    let hr_plot := df_rename PLOT_LABELS hr in
    _ ← emit (Subheader "📈 Hourly Forecast");
    let temp_cols :=
      List.filter (fun c => df_has c hr_plot)
        ["Air Temperature (°C)"; "Feels Like (°C)"] in
    _ ← (match temp_cols with
         | [] => mret tt
         | _ => emit (LineChart "Temperature (Next Hours)" temp_cols hr_plot)
         end);
    _ ← (if df_has "Precipitation Probability (%)" hr_plot then
           emit (BarChart "Precipitation Probability"
                   "Precipitation Probability (%)" hr_plot)
         else mret tt);
    if df_has "Wind Speed (km/h)" hr_plot then
      emit (LineChart "Wind Speed" ["Wind Speed (km/h)"] hr_plot)
    else mret tt
  else mret tt.

Definition NS_PER_SECOND : Z := 1000000000.

(** [fmt_time]: [pd.to_datetime(x).strftime("%I:%M %p")], the dash on any
    failure.  A timestamp is formatted as it is.  [pd.to_datetime] reads a
    finite number as nanoseconds since the epoch, its fraction dropped, and
    the card shows that time of day.  A missing value converts to [NaT],
    and a number beyond the 64-bit range of nanosecond timestamps does not
    convert; [strftime] fails on both, which gives the dash. *)
Definition fmt_time (x : cell) : text :=
  match x with
  | CT t => [Time "%I:%M %p" t]
  | CN (Fin q) =>
      let ns := py_int q in
      if (- 2 ^ 63 <? ns) && (ns <? 2 ^ 63) then
        [Time "%I:%M %p" (ns / NS_PER_SECOND)]
      else [Lit "–"]
  | CN NaN => [Lit "–"]
  end.

(** [daily.iloc[0][c]] read as a number by a format such as [:.1f]. *)
Definition daily_number (daily : DataFrame) (c : string) : St num :=
  x ← lift (df_iloc0 daily c); lift (cell_num x).

(** Today Snapshot (Sunrise/Sunset & High/Low) *)
Definition today_section (daily : DataFrame) : St unit :=
  if negb (df_empty daily) then
    _ ← emit (Subheader "🗓️ Today at a Glance");
    v ← daily_number daily "temperature_2m_max";
    _ ← glass_metric "High" [Number ".1f" v; Lit " °C"];
    v ← daily_number daily "temperature_2m_min";
    _ ← glass_metric "Low" [Number ".1f" v; Lit " °C"];
    v ← daily_number daily "apparent_temperature_max";
    _ ← glass_metric "Feels Max" [Number ".1f" v; Lit " °C"];
    x ← lift (df_iloc0 daily "sunrise");
    _ ← glass_metric "Sunrise" (fmt_time x);
    x ← lift (df_iloc0 daily "sunset");
    _ ← glass_metric "Sunset" (fmt_time x);
    v ← daily_number daily "uv_index_max";
    glass_metric "UV Index Max" [Number ".0f" v]
  else mret tt.

(** Precipitation progress (next hour) *)
Definition precip_section (hr : option DataFrame) : St unit :=
  hr ← read_var hr;
  if negb (df_empty hr) && df_has "precipitation_probability" hr then
    x ← lift (df_iloc0 hr "precipitation_probability");
    v ← lift (cell_num x);
    (* int(x) if pd.notna(x) else 0 *)
    let next_prob := match v with Fin q => py_int q | NaN => 0 end in
    _ ← emit (Markdown "#### ☔ Chance of Rain (next hour)");
    emit (RainBar next_prob)
  else mret tt.

Definition TABLE_COLUMNS : list string := [
  "time"; "temperature_2m"; "apparent_temperature"; "relativehumidity_2m";
  "precipitation_probability"; "windspeed_10m"
].

Definition TABLE_LABELS : list string := [
  "Time"; "Temp (°C)"; "Feels (°C)"; "Humidity (%)"; "Rain %"; "Wind (km/h)"
].

(** [df[[c, ...]]] *)
Fixpoint df_select (cols : list string) (df : DataFrame) : result DataFrame :=
  match cols with
  | [] => Ok []
  | c :: cols' =>
      col ← df_col c df;
      rest ← df_select cols' df;
      mret ((c, col) :: rest)
  end.

(** [df.columns = labels]: the lengths must agree. *)
Definition set_columns (labels : list string) (df : DataFrame)
  : result DataFrame :=
  if Nat.eqb (length labels) (length df) then Ok (zip labels (map snd df))
  else Raise ValueError.

(** [s.dt]: only a datetime column has the accessor. *)
Definition dt_accessor (c : column) : result (list Z) :=
  match c with
  | TimeCol l => Ok l
  | NumCol _ => Raise AttributeError
  end.

(** Details Table.  The table keeps the timestamps of its Time column; they
    are shown in the format ["%d %b • %I:%M %p"]. *)
Definition table_section (show_table : bool) (hr : option DataFrame)
  : St unit :=
  if show_table then
    hr ← read_var hr;
    if negb (df_empty hr) then
      table ← lift (df_select
                      (List.filter (fun c => df_has c hr) TABLE_COLUMNS) hr);
      table ← lift (set_columns TABLE_LABELS table);
      col ← lift (df_col "Time" table);
      _ ← lift (dt_accessor col);
      _ ← emit (Markdown "#### 🔎 Detailed Hourly Table");
      emit (Table table)
    else mret tt
  else mret tt.

Definition FOOTER : string :=
  "Data source: Open-Meteo. This dashboard uses animated backgrounds, glass cards, and interactive Plotly charts for an at-a-glance weather experience.".

Definition app (geo : Geo) (data : Payload) (hours_ahead : Z)
    (show_table : bool) : St unit :=
  let current := default no_current (current_weather data) in
  _ ← theme_and_header geo current;
  _ ← current_cards current;
  let hourly := default [] (hourly_data data) in
  let daily := default [] (daily_data data) in
  hr ← hourly_section current hourly hours_ahead;
  _ ← alerts_section hr current daily;
  _ ← charts_section hr;
  _ ← today_section daily;
  _ ← precip_section hr;
  _ ← table_section show_table hr;
  emit (Caption FOOTER).

(** One run of the script on an empty page. *)
Definition run (geo : Geo) (data : Payload) (hours_ahead : Z)
    (show_table : bool) : list widget * result unit :=
  app geo data hours_ahead show_table [].

(** ** The top of the script (lines 105-135 and 175-206)

    The two requests are answered by the services, which the model takes as
    functions: the geocoding service from the city name put in the URL, the
    forecast service from the latitude and longitude put in the URL.  A
    response is its status code and the JSON object of its body, a missing
    key being [None].  A request that gets no response at all, and the
    caches of [st.cache_data], are left out.  The widgets of the sidebar
    are inputs: the values they return are the fields of [Controls]. *)

Record Response (A : Type) : Type := mkResponse {
  status_code : Z;
  json : A
}.

Arguments mkResponse {A} status_code json.
Arguments status_code {A} r.
Arguments json {A} r.

(** One element of [js["results"]]. *)
Record GeoResult : Type := mkGeoResult {
  res_latitude : option Q;
  res_longitude : option Q;
  res_name : option string;
  res_country : option string
}.

(** The body of a geocoding response: [js.get("results")]. *)
Record GeoBody : Type := mkGeoBody {
  results : option (list GeoResult)
}.

(** The dict [geocode_city] returns. *)
Record Location : Type := mkLocation {
  latitude : Q;
  longitude : Q;
  place : Geo
}.

Definition geocode_city (r : Response GeoBody) : result (option Location) :=
  if status_code r =? 200 then
    match results (json r) with
    | Some (res :: _) =>
        lat ← getitem (res_latitude res);
        lon ← getitem (res_longitude res);
        name ← getitem (res_name res);
        mret (Some (mkLocation lat lon
                      (mkGeo name (default "" (res_country res)))))
    | _ => Ok None
    end
  else Ok None.

(** What [fetch_weather] gives its caller: the payload, or the [HTTPError]
    of [raise_for_status] with the status it reports. *)
Inductive fetched : Type :=
| Fetched (data : Payload)
| HTTPError (status : Z).

Definition fetch_weather (r : Response Payload) : fetched :=
  if (400 <=? status_code r) && (status_code r <? 600)
  then HTTPError (status_code r)
  else Fetched (json r).

(** The values the sidebar widgets return. *)
Record Controls : Type := mkControls {
  text_input : string;
  slider : Z;
  checkbox : bool;
  button_delhi : bool;
  button_mumbai : bool;
  button_bengaluru : bool;
  button_chennai : bool
}.

(** [city] after the text input and the four quick picks, in their order. *)
Definition picked_city (c : Controls) : string :=
  let city := text_input c in
  let city := if button_delhi c then "Delhi" else city in
  let city := if button_mumbai c then "Mumbai" else city in
  let city := if button_bengaluru c then "Bengaluru" else city in
  if button_chennai c then "Chennai" else city.

(** The main page: the title, an error box with the cause it quotes, or a
    widget of the dashboard. *)
Inductive block : Type :=
| Title (body : string)
| ErrorBox (body : string) (cause : option Z)
| Widget (w : widget).

(** How a run of the script ends: at [st.stop()], or at its last line or
    the exception that ended it. *)
Inductive ending : Type :=
| Stopped
| Ended (r : result unit).

Definition PAGE_TITLE : string :=
  "🌦️ Live Weather Dashboard — Animated & Interactive".
Definition CITY_PROMPT : string :=
  "Please enter a city in the sidebar to begin.".
Definition CITY_NOT_FOUND : string :=
  "❌ City not found. Please try another name.".
Definition FETCH_FAILED : string :=
  "❌ Failed to fetch weather data: ".

Definition main (c : Controls)
    (geocoding_api : string -> Response GeoBody)
    (forecast_api : Q -> Q -> Response Payload) : list block * ending :=
  let city := picked_city c in
  let hours_ahead := slider c in
  let show_table := checkbox c in
  let page := [Title PAGE_TITLE] in
  if String.eqb city "" then
    (page ++ [Widget (Info CITY_PROMPT)], Stopped)
  else
    match geocode_city (geocoding_api city) with
    | Raise e => (page, Ended (Raise e))
    | Ok None => (page ++ [ErrorBox CITY_NOT_FOUND None], Stopped)
    | Ok (Some geo) =>
        match fetch_weather (forecast_api (latitude geo) (longitude geo)) with
        | HTTPError status =>
            (page ++ [ErrorBox FETCH_FAILED (Some status)], Stopped)
        | Fetched data =>
            let '(body, r) := run (place geo) data hours_ahead show_table in
            (page ++ map Widget body, Ended r)
        end
    end.

(** * Reference definitions

    Definitions that follow the wording of the specification, and the sample
    payloads the properties are tried on. *)

(** The documented table of the Condition Classifier: the label of the
    condition each code stands for, [Cloudy] for a code outside the table. *)
Definition code_in (code : Z) (codes : list Z) : bool :=
  existsb (Z.eqb code) codes.

Definition documented_condition (code : Z) : string :=
  if code_in code [0] then "Clear"
  else if code_in code [1; 2; 3] then "Cloudy"
  else if code_in code [45; 48] then "Fog"
  else if code_in code [51; 53; 55; 56; 57; 61; 63; 65; 66; 67; 80; 81; 82]
  then "Rain"
  else if code_in code [71; 73; 75; 77; 85; 86] then "Snow"
  else if code_in code [95; 96; 99] then "Storm"
  else "Cloudy".

(** A dict literal looked up by key: the first pair with that key. *)
Fixpoint assoc {V} (k : Z) (l : list (Z * V)) : option V :=
  match l with
  | [] => None
  | (k', v) :: l' => if Z.eqb k k' then Some v else assoc k l'
  end.

(** The nine friendly messages. *)
Definition MSG_SCORCHING : string :=
  "🔥 It's scorching outside! Better stay indoors with a cool drink.".
Definition MSG_SUNNY : string :=
  "☀️ It's quite sunny today. Don't forget your sunglasses!".
Definition MSG_FREEZING : string :=
  "❄️ Brrr! It's freezing out there. Dress warmly and sip something hot.".
Definition MSG_COOL : string :=
  "🌤️ It's a cool day, perfect for a walk.".
Definition MSG_STRONG_WIND : string :=
  "🌪️ Strong winds are blowing. Secure loose objects outside!".
Definition MSG_BREEZY : string :=
  "💨 Breezy day! A cap might fly away.".
Definition MSG_UMBRELLA : string :=
  "🌧️ High chance of rain — take an umbrella!".
Definition MSG_SHOWERS : string :=
  "🌦️ You might get some showers later today.".
Definition MSG_PLEASANT : string :=
  "🌈 Weather looks pleasant. Enjoy your day!".

Definition ALL_MESSAGES : list string := [
  MSG_SCORCHING; MSG_SUNNY; MSG_FREEZING; MSG_COOL; MSG_STRONG_WIND;
  MSG_BREEZY; MSG_UMBRELLA; MSG_SHOWERS; MSG_PLEASANT
].

(** Strict comparisons of a reading with a threshold, by the order of the
    rationals; a missing reading satisfies none. *)
Definition exceeds (x : num) (k : Q) : bool :=
  match x with
  | Fin q => if Qlt_le_dec k q then true else false
  | NaN => false
  end.

Definition below (x : num) (k : Q) : bool :=
  match x with
  | Fin q => if Qlt_le_dec q k then true else false
  | NaN => false
  end.

(** The priority cascade of the Advisory Engine as an ordered list of
    (predicate, message) pairs on (tempC, windKmh, rainProbPct). *)
Definition FRIENDLY_CASCADE : list ((num * num * num -> bool) * string) := [
  (fun a => exceeds a.1.1 38, MSG_SCORCHING);
  (fun a => exceeds a.1.1 30, MSG_SUNNY);
  (fun a => below a.1.1 10, MSG_FREEZING);
  (fun a => below a.1.1 18, MSG_COOL);
  (fun a => exceeds a.1.2 40, MSG_STRONG_WIND);
  (fun a => exceeds a.1.2 20, MSG_BREEZY);
  (fun a => exceeds a.2 70, MSG_UMBRELLA);
  (fun a => exceeds a.2 40, MSG_SHOWERS)
].

(** First matching rule wins. *)
Fixpoint first_match {A} (rules : list ((A -> bool) * string))
    (otherwise : string) (a : A) : string :=
  match rules with
  | [] => otherwise
  | (p, m) :: rules' => if p a then m else first_match rules' otherwise a
  end.

(** [k <= x] for a reading, by the order of the rationals. *)
Definition at_least (x : num) (k : Q) : Prop :=
  match x with
  | Fin q => (k <= q)%Q
  | NaN => False
  end.

(** The fixed order of the alert list: heat, wind, rain, UV. *)
Definition ALERT_ORDER : list string := [
  SEVERE_HEAT; HEAT_CAUTION; GALE_WARNING; HIGH_WIND; RAIN_NEXT6; EXTREME_UV
].

(** The smallest inputs on which the alerts section takes given readings:
    a window of one hour with apparent temperature [t] and precipitation
    probability [r], current conditions with wind speed [w], and one day
    with UV index [uv]. *)
Definition readings_hr (t r : num) : DataFrame :=
  [("apparent_temperature", NumCol [t]);
   ("precipitation_probability", NumCol [r])].

Definition readings_current (w : Q) : Current :=
  mkCurrent None (Some w) None None None.

Definition readings_daily (uv : num) : DataFrame :=
  [("uv_index_max", NumCol [uv])].

(** The hourly series as the specification sees it: one point per row,
    each point the named cells of that row. *)
Abbreviation row := (list (string * cell)).

Fixpoint df_rows (df : DataFrame) : list row :=
  match df with
  | [] => []
  | (n, c) :: rest =>
      match rest with
      | [] => map (fun x => [(n, x)]) (col_cells c)
      | _ => zip_with (fun x r => (n, x) :: r) (col_cells c) (df_rows rest)
      end
  end.

Fixpoint row_get (c : string) (r : row) : option cell :=
  match r with
  | [] => None
  | (n, x) :: r' => if String.eqb n c then Some x else row_get c r'
  end.

(** [point.time] *)
Definition row_time (r : row) : option Z :=
  match row_get "time" r with
  | Some (CT t) => Some t
  | _ => None
  end.

(** [now <= point.time < now + horizonHours] hours, and the two sides of
    the window. *)
Definition in_window (now hours : Z) (r : row) : bool :=
  match row_time r with
  | Some t => bool_decide (now <= t < now + 3600 * hours)
  | None => false
  end.

Definition before_window (now : Z) (r : row) : bool :=
  match row_time r with
  | Some t => bool_decide (t < now)
  | None => false
  end.

Definition after_window (now hours : Z) (r : row) : bool :=
  match row_time r with
  | Some t => bool_decide (now + 3600 * hours <= t)
  | None => false
  end.

(** A column that, where present, holds numbers. *)
Definition df_numeric (c : string) (df : DataFrame) : Prop :=
  forall col, df_col c df = Ok col -> exists l, col = NumCol l.

(** *** Sample payloads *)

Definition chennai : Geo := mkGeo "Chennai" "India".

(** Current conditions at 12:00 of the first day. *)
Definition sample_current : Current :=
  mkCurrent (Some 29%Q) (Some 12%Q) (Some 180%Q) (Some 3) (Some 43200).

(** Five hourly points, 10:00 to 14:00. *)
Definition sample_hourly : DataFrame := [
  ("time", TimeCol [36000; 39600; 43200; 46800; 50400]);
  ("temperature_2m", NumCol [Fin 27; Fin 28; Fin 29; Fin (61 # 2); Fin 30]);
  ("apparent_temperature", NumCol [Fin 30; Fin 31; Fin 33; Fin 36; Fin 35]);
  ("relativehumidity_2m", NumCol [Fin 70; Fin 68; Fin 66; Fin 60; Fin 61]);
  ("windspeed_10m", NumCol [Fin 10; Fin 11; Fin 12; Fin 14; Fin 13]);
  ("precipitation_probability", NumCol [Fin 5; Fin 10; Fin 20; Fin 75; Fin 40])
].

Definition sample_daily : DataFrame := [
  ("time", TimeCol [0]);
  ("weathercode", NumCol [Fin 3]);
  ("temperature_2m_max", NumCol [Fin 33]);
  ("temperature_2m_min", NumCol [Fin 25]);
  ("apparent_temperature_max", NumCol [Fin 37]);
  ("apparent_temperature_min", NumCol [Fin 27]);
  ("sunrise", TimeCol [21600]);
  ("sunset", TimeCol [64800]);
  ("uv_index_max", NumCol [Fin 9]);
  ("precipitation_sum", NumCol [Fin 0]);
  ("windspeed_10m_max", NumCol [Fin 20]);
  ("windgusts_10m_max", NumCol [Fin 35])
].

(** A payload with every field present. *)
Definition sample_payload : Payload :=
  mkPayload (Some sample_current) (Some sample_hourly) (Some sample_daily).

(** [del frame[c]] on the payload, before the script runs. *)
Definition df_drop (c : string) (df : DataFrame) : DataFrame :=
  List.filter (fun nc => negb (String.eqb nc.1 c)) df.

(** The sample without its hourly series. *)
Definition no_hourly_payload : Payload :=
  mkPayload (Some sample_current) None (Some sample_daily).

(** The sample read at 01:00 of the next day, after its last hourly point. *)
Definition late_payload : Payload :=
  mkPayload
    (Some (mkCurrent (Some 29%Q) (Some 12%Q) (Some 180%Q) (Some 3)
             (Some 90000)))
    (Some sample_hourly) (Some sample_daily).

(** The sample with one field removed. *)
Definition no_apparent_payload : Payload :=
  mkPayload (Some sample_current)
    (Some (df_drop "apparent_temperature" sample_hourly)) (Some sample_daily).

Definition no_uv_payload : Payload :=
  mkPayload (Some sample_current) (Some sample_hourly)
    (Some (df_drop "uv_index_max" sample_daily)).

Definition no_time_payload : Payload :=
  mkPayload
    (Some (mkCurrent (Some 29%Q) (Some 12%Q) (Some 180%Q) (Some 3) None))
    (Some sample_hourly) (Some sample_daily).

Definition no_weathercode_payload : Payload :=
  mkPayload
    (Some (mkCurrent (Some 29%Q) (Some 12%Q) (Some 180%Q) None (Some 43200)))
    (Some sample_hourly) (Some sample_daily).

(** The window of the sample at 12:00, and the window with no point left
    that [late_payload] selects. *)
Definition sample_window : DataFrame :=
  df_loc [false; false; true; true; true] sample_hourly.

Definition empty_window : DataFrame :=
  df_loc [false; false; false; false; false] sample_hourly.

(** What the script has written when it reaches the hourly section of the
    sample: style sheet, header and the four cards. *)
Definition sample_head : list widget := [
  ThemeStyle "#90A5BA" "#5B7BAA" "#124E82";
  HeaderBand "⛅" "Chennai, India — Cloudy"
    [Lit "Last updated: "; Time "%a, %d %b %Y • %I:%M %p" 43200];
  GlassMetric "Temperature" [Number "" (Fin 29); Lit " °C"];
  GlassMetric "Feels Like" [Lit "–"];
  GlassMetric "Wind Speed" [Number "" (Fin 12); Lit " km/h"];
  GlassMetric "Wind Direction" [Number "" (Fin 180); Lit "°"]
].

(** The section a widget stands for: the title of a card or chart, the
    kind of anything else. *)
Definition widget_label (w : widget) : string :=
  match w with
  | ThemeStyle _ _ _ => "style"
  | HeaderBand _ _ _ => "header"
  | GlassMetric title _ => title
  | Info _ => "message"
  | Warning _ => "alert"
  | Subheader _ => "subheader"
  | Markdown _ => "heading"
  | LineChart title _ _ => title
  | BarChart title _ _ => title
  | RainBar _ => "rain bar"
  | Table _ => "table"
  | Caption _ => "caption"
  end.

(** The daily fields the Today cards read, in the order of the cards, and
    the hourly fields among them that must hold numbers. *)
Definition TODAY_FIELDS : list string := [
  "temperature_2m_max"; "temperature_2m_min"; "apparent_temperature_max";
  "sunrise"; "sunset"; "uv_index_max"
].

Definition TODAY_NUMBERS : list string := [
  "temperature_2m_max"; "temperature_2m_min"; "apparent_temperature_max";
  "uv_index_max"
].

(** *** Sample services and controls *)

(** A geocoding service that knows Chennai alone. *)
Definition sample_geocoding (city : string) : Response GeoBody :=
  if String.eqb city "Chennai" then
    mkResponse 200
      (mkGeoBody
         (Some [mkGeoResult (Some (1308 # 100)%Q) (Some (8027 # 100)%Q)
                  (Some "Chennai") (Some "India")]))
  else mkResponse 200 (mkGeoBody None).

(** A forecast service that answers with the sample, and one that is down. *)
Definition sample_forecast (lat lon : Q) : Response Payload :=
  mkResponse 200 sample_payload.

Definition failing_forecast (lat lon : Q) : Response Payload :=
  mkResponse 503 (mkPayload None None None).

(** The controls as the page first shows them, and with a city typed that
    the service does not know. *)
Definition default_controls : Controls :=
  mkControls "Chennai" 24 true false false false false.

Definition unknown_city_controls : Controls :=
  mkControls "Atlantis" 24 true false false false false.

(** * Properties *)

(** ** Condition classifier *)

Lemma lookup_list_to_map_assoc {V} (l : list (Z * V)) (k : Z) :
  (list_to_map l : gmap Z V) !! k = assoc k l.
Proof.
  induction l as [|[k' v] l IH]; simpl.
  - apply lookup_empty.
  - destruct (Z.eqb_spec k k') as [->|Hne].
    + apply lookup_insert_eq.
    + rewrite lookup_insert_ne by congruence. exact IH.
Qed.

Lemma condition_key_assoc (code : Z) :
  condition_key code = default "cloudy" (assoc code WMO_TABLE).
Proof. unfold condition_key, WMO_MAP. by rewrite lookup_list_to_map_assoc. Qed.

Ltac split_code code :=
  repeat match goal with
  | |- context [Z.eqb code ?k] =>
      destruct (Z.eqb_spec code k) as [->|?];
      [vm_compute; eexists; split; reflexivity | cbn]
  end.

Lemma theme_of_code_documented (code : Z) :
  exists theme,
    theme_of_key (condition_key code) = Ok theme
    /\ name theme = documented_condition code.
Proof.
  rewrite condition_key_assoc.
  unfold documented_condition, code_in, WMO_TABLE. cbn.
  split_code code.
  vm_compute; eexists; split; reflexivity.
Qed.

Lemma set_theme_from_code_run (code : Z) (theme : Theme) (page : list widget) :
  theme_of_key (condition_key code) = Ok theme ->
  set_theme_from_code code page
  = (page ++ [ThemeStyle (c1 theme) (c2 theme) (c3 theme)], Ok theme).
Proof.
  intros H. unfold set_theme_from_code, mbind, St_bind, lift, emit, mret, St_ret.
  by rewrite H.
Qed.

(** C1: for every integer weather code [set_theme_from_code] returns a theme
    and never raises; the theme carries the label the documented table gives
    the code (0 Clear; 1, 2, 3 Cloudy; 45, 48 Fog; the rain, snow and storm
    codes Rain, Snow and Storm), and Cloudy for every code outside the
    table.  The only effect is the style sheet of that theme, added to the
    page. *)
Theorem C1_classification_total (code : Z) (page : list widget) :
  exists theme,
    set_theme_from_code code page
    = (page ++ [ThemeStyle (c1 theme) (c2 theme) (c3 theme)], Ok theme)
    /\ name theme = documented_condition code
    /\ (code_in code (map fst WMO_TABLE) = false ->
        CONDITION_THEMES !! "cloudy" = Some theme).
Proof.
  destruct (theme_of_code_documented code) as (theme & Hk & Hn).
  exists theme. split; [by apply set_theme_from_code_run|]. split; [done|].
  intros Hout. revert Hk. rewrite condition_key_assoc.
  assert (assoc code WMO_TABLE = None) as ->.
  { revert Hout. unfold code_in, WMO_TABLE. cbn.
    repeat match goal with
    | |- context [Z.eqb code ?k] =>
        destruct (Z.eqb_spec code k) as [->|?]; [by vm_compute | cbn]
    end. done. }
  vm_compute. by intros [= <-].
Qed.

(** C9: when the current-conditions payload has no [weathercode] field
    (or no current conditions at all), the code passed to
    [set_theme_from_code] is 1 and the theme selected is the Cloudy one. *)
Theorem C9_missing_weathercode_is_cloudy (data : Payload) (page : list widget) :
  cw_weathercode (default no_current (current_weather data)) = None ->
  let current := default no_current (current_weather data) in
  theme_code current = 1
  /\ exists theme,
       CONDITION_THEMES !! "cloudy" = Some theme
       /\ name theme = "Cloudy"
       /\ set_theme_from_code (theme_code current) page
          = (page ++ [ThemeStyle (c1 theme) (c2 theme) (c3 theme)], Ok theme).
Proof.
  intros Hnone current. unfold theme_code. subst current. rewrite Hnone. simpl.
  split; [done|].
  eexists. split; [by vm_compute|]. split; [done|].
  by apply set_theme_from_code_run.
Qed.

Lemma C9_missing_weathercode_witness :
  theme_code (default no_current (current_weather no_weathercode_payload)) = 1
  /\ exists theme,
       CONDITION_THEMES !! "cloudy" = Some theme
       /\ name theme = "Cloudy"
       /\ set_theme_from_code
            (theme_code
               (default no_current (current_weather no_weathercode_payload)))
            []
          = ([ThemeStyle (c1 theme) (c2 theme) (c3 theme)], Ok theme).
Proof.
  apply (C9_missing_weathercode_is_cloudy no_weathercode_payload []).
  reflexivity.
Defined.

(** ** Friendly message *)

Lemma num_gt_exceeds (x : num) (k : Q) : num_gt x k = exceeds x k.
Proof.
  destruct x as [q|]; [|done]. simpl.
  destruct (Qlt_le_dec k q) as [Hlt|Hle].
  - apply negb_true_iff. apply not_true_is_false. intros H.
    apply Qle_bool_iff in H. by apply Qlt_not_le in Hlt.
  - apply negb_false_iff. by apply Qle_bool_iff.
Qed.

Lemma num_lt_below (x : num) (k : Q) : num_lt x k = below x k.
Proof.
  destruct x as [q|]; [|done]. simpl.
  destruct (Qlt_le_dec q k) as [Hlt|Hle].
  - apply negb_true_iff. apply not_true_is_false. intros H.
    apply Qle_bool_iff in H. by apply Qlt_not_le in Hlt.
  - apply negb_false_iff. by apply Qle_bool_iff.
Qed.

Lemma exceeds_Qeq (q q' k : Q) :
  (q == q')%Q -> exceeds (Fin q) k = exceeds (Fin q') k.
Proof.
  intros Hq. simpl.
  destruct (Qlt_le_dec k q) as [H|H], (Qlt_le_dec k q') as [H'|H']; try done;
    rewrite Hq in H; exfalso; by eapply Qlt_not_le.
Qed.

Lemma below_Qeq (q q' k : Q) :
  (q == q')%Q -> below (Fin q) k = below (Fin q') k.
Proof.
  intros Hq. simpl.
  destruct (Qlt_le_dec q k) as [H|H], (Qlt_le_dec q' k) as [H'|H']; try done;
    rewrite Hq in H; exfalso; by eapply Qlt_not_le.
Qed.

Lemma weather_message_cascade (t w r : num) :
  weather_message t w r = first_match FRIENDLY_CASCADE MSG_PLEASANT (t, w, r).
Proof.
  unfold weather_message. rewrite !num_gt_exceeds, !num_lt_below. simpl.
  repeat match goal with
  | |- context [if ?b then _ else _] => destruct b; [reflexivity|]
  end.
  reflexivity.
Qed.

(** C2: the friendly message is the first match of the cascade
    temp > 38, temp > 30, temp < 10, temp < 18, wind > 40, wind > 20,
    rain > 70, rain > 40, else the pleasant-day message, every comparison
    strict: a temperature of exactly 38 gives the sunny message and one of
    exactly 30 leaves the choice to the wind and rain rules.  The result is
    one of nine pairwise different messages, and the four documented
    examples hold. *)
Theorem C2_friendly_message_cascade :
  (forall t w r : num,
     weather_message t w r
     = first_match FRIENDLY_CASCADE MSG_PLEASANT (t, w, r))
  /\ (forall t w r : num, weather_message t w r ∈ ALL_MESSAGES)
  /\ NoDup ALL_MESSAGES
  /\ (forall (q : Q) (w r : num),
        (q == 38)%Q -> weather_message (Fin q) w r = MSG_SUNNY)
  /\ (forall (q : Q) (w r : num),
        (q == 30)%Q ->
        weather_message (Fin q) w r
        = first_match (drop 4 FRIENDLY_CASCADE) MSG_PLEASANT (Fin q, w, r))
  /\ weather_message (Fin 39) (Fin 0) (Fin 0) = MSG_SCORCHING
  /\ weather_message (Fin 20) (Fin 50) (Fin 0) = MSG_STRONG_WIND
  /\ weather_message (Fin 20) (Fin 10) (Fin 80) = MSG_UMBRELLA
  /\ weather_message (Fin 20) (Fin 10) (Fin 10) = MSG_PLEASANT.
Proof.
  split; [exact weather_message_cascade|].
  split.
  { intros t w r. unfold weather_message, ALL_MESSAGES.
    repeat match goal with
    | |- context [if ?b then _ else _] => destruct b
    end; set_solver. }
  split; [compute_done|].
  split.
  { intros q w r Hq. rewrite weather_message_cascade.
    unfold FRIENDLY_CASCADE. cbn [first_match fst snd].
    by rewrite !(exceeds_Qeq q 38 _ Hq). }
  split.
  { intros q w r Hq. rewrite weather_message_cascade.
    unfold FRIENDLY_CASCADE. cbn [first_match fst snd drop].
    by rewrite (exceeds_Qeq q 30 38 Hq), (exceeds_Qeq q 30 30 Hq),
      !(below_Qeq q 30 _ Hq). }
  repeat split; reflexivity.
Qed.

(** ** Alerts *)

Lemma num_ge_at_least (x : num) (k : Q) : num_ge x k = true <-> at_least x k.
Proof.
  destruct x as [q|]; simpl; [apply Qle_bool_iff | split; [discriminate|tauto]].
Qed.

Ltac sublist_order :=
  repeat first [apply sublist_nil | apply sublist_skip | apply sublist_cons].

Ltac split_checks :=
  unfold computeAlerts, uv_check, rain_check, wind_check, heat_check, append;
  repeat match goal with
  | |- context [num_ge ?x ?k] => destruct (num_ge x k)
  end; simpl.

Lemma computeAlerts_ordered (t w r : num) (uv : option num) :
  let l := computeAlerts t w r uv in
  sublist l ALERT_ORDER
  /\ ~ (SEVERE_HEAT ∈ l /\ HEAT_CAUTION ∈ l)
  /\ ~ (GALE_WARNING ∈ l /\ HIGH_WIND ∈ l).
Proof.
  destruct uv as [u|]; split_checks;
    (split; [unfold ALERT_ORDER; sublist_order | split; compute_done]).
Qed.

Lemma alerts_computeAlerts (hr : DataFrame) (current : Current)
    (daily : DataFrame) (found : list string) :
  alerts hr current daily = Ok found ->
  (df_empty hr = true /\ found = [])
  \/ exists t r uv,
       t_now hr current = Ok t
       /\ rain_next6 hr = Ok r
       /\ found = computeAlerts t (ws_now current) r uv.
Proof.
  unfold alerts. destruct (df_empty hr); simpl; [intros [= <-]; by left|].
  destruct (t_now hr current) as [t|]; simpl; [|discriminate].
  destruct (rain_next6 hr) as [r|]; simpl; [|discriminate].
  destruct (negb (df_empty daily) && df_has "uv_index_max" daily).
  - destruct (df_iloc0 daily "uv_index_max") as [x|]; simpl; [|discriminate].
    destruct (cell_num x) as [u|]; simpl; [|discriminate].
    intros [= <-]. right. by exists t, r, (Some u).
  - intros [= <-]. right. by exists t, r, None.
Qed.

(** The alerts section is the four checks run on the four readings it
    takes itself. *)
Lemma alerts_readings (hr : DataFrame) (current : Current)
    (daily : DataFrame) :
  alerts hr current daily
  = if df_empty hr then Ok []
    else
      t ← t_now hr current;
      r ← rain_next6 hr;
      uv ← uv_today daily;
      mret (computeAlerts t (ws_now current) r uv).
Proof.
  unfold alerts, uv_today, computeAlerts.
  destruct (df_empty hr); simpl; [done|].
  destruct (t_now hr current) as [t|]; simpl; [|done].
  destruct (rain_next6 hr) as [r|]; simpl; [|done].
  destruct (negb (df_empty daily) && df_has "uv_index_max" daily); [|done].
  destruct (df_iloc0 daily "uv_index_max") as [x|]; simpl; [|done].
  by destruct (cell_num x).
Qed.

Lemma alerts_on_readings (t r uv : num) (w : Q) :
  alerts (readings_hr t r) (readings_current w) (readings_daily uv)
  = Ok (computeAlerts t (Fin w) r (Some uv)).
Proof. rewrite alerts_readings. by destruct r. Qed.

(** C3: the alerts section of the script returns the four checks run on the
    four readings it takes (near-term temperature, current wind, largest
    rain probability of the next six hours, today's UV index), and every
    four readings are taken on some input.  On any four readings that list
    holds at most one heat alert (severe heat from 40, else heat caution
    from 35) and at most one wind alert (gale from 75, else high wind from
    50), the rain alert from 70 and the UV alert from 8, no alert twice,
    and it is always a subsequence of the fixed order heat, wind, rain, UV.
    Readings 41, 0, 0, 0 give the severe-heat alert alone, from the checks
    and from the section run on a window, current conditions and a day with
    those readings.  Every list the section returns is empty for a window
    without rows and otherwise the checks on its readings, so it is ordered
    and exclusive in the same way. *)
Theorem C3_alerts_ordered_exclusive (t w r uv : num) :
  let l := computeAlerts t w r (Some uv) in
  (forall hr current daily uv',
     df_empty hr = false ->
     t_now hr current = Ok t ->
     ws_now current = w ->
     rain_next6 hr = Ok r ->
     uv_today daily = Ok uv' ->
     alerts hr current daily = Ok (computeAlerts t w r uv'))
  /\ (forall q,
        w = Fin q ->
        alerts (readings_hr t r) (readings_current q) (readings_daily uv)
        = Ok l)
  /\ sublist l ALERT_ORDER
  /\ NoDup l
  /\ (SEVERE_HEAT ∈ l <-> at_least t 40)
  /\ (HEAT_CAUTION ∈ l <-> at_least t 35 /\ ~ at_least t 40)
  /\ (GALE_WARNING ∈ l <-> at_least w 75)
  /\ (HIGH_WIND ∈ l <-> at_least w 50 /\ ~ at_least w 75)
  /\ (RAIN_NEXT6 ∈ l <-> at_least r 70)
  /\ (EXTREME_UV ∈ l <-> at_least uv 8)
  /\ ~ (SEVERE_HEAT ∈ l /\ HEAT_CAUTION ∈ l)
  /\ ~ (GALE_WARNING ∈ l /\ HIGH_WIND ∈ l)
  /\ computeAlerts (Fin 41) (Fin 0) (Fin 0) (Some (Fin 0)) = [SEVERE_HEAT]
  /\ alerts (readings_hr (Fin 41) (Fin 0)) (readings_current 0)
       (readings_daily (Fin 0))
     = Ok [SEVERE_HEAT]
  /\ (forall hr current daily found,
        alerts hr current daily = Ok found ->
        (df_empty hr = true /\ found = []
         \/ df_empty hr = false
            /\ exists t' r' uv',
                 t_now hr current = Ok t'
                 /\ rain_next6 hr = Ok r'
                 /\ uv_today daily = Ok uv'
                 /\ found = computeAlerts t' (ws_now current) r' uv')
        /\ sublist found ALERT_ORDER
        /\ NoDup found
        /\ ~ (SEVERE_HEAT ∈ found /\ HEAT_CAUTION ∈ found)
        /\ ~ (GALE_WARNING ∈ found /\ HIGH_WIND ∈ found)).
Proof.
  intros l. subst l.
  rewrite <- !num_ge_at_least.
  split.
  { intros hr current daily uv' Hrows Ht Hw Hr Huv.
    by rewrite alerts_readings, Hrows, Ht, Hr, Huv, Hw. }
  split; [intros q ->; apply alerts_on_readings|].
  split; [apply (computeAlerts_ordered t w r (Some uv))|].
  split.
  { apply (sublist_NoDup _ ALERT_ORDER); [compute_done|].
    apply (computeAlerts_ordered t w r (Some uv)). }
  split; [split_checks; compute_done|].
  split; [split_checks; compute_done|].
  split; [split_checks; compute_done|].
  split; [split_checks; compute_done|].
  split; [split_checks; compute_done|].
  split; [split_checks; compute_done|].
  split; [apply (computeAlerts_ordered t w r (Some uv))|].
  split; [apply (computeAlerts_ordered t w r (Some uv))|].
  split; [reflexivity|].
  split; [reflexivity|].
  intros hr current daily found. rewrite alerts_readings.
  destruct (df_empty hr).
  { intros [= <-]. split; [by left|].
    split; [apply sublist_nil_l|]. split; [constructor|]. split; compute_done. }
  destruct (t_now hr current) as [t'|]; simpl; [|discriminate].
  destruct (rain_next6 hr) as [r'|]; simpl; [|discriminate].
  destruct (uv_today daily) as [uv'|]; simpl; [|discriminate].
  intros [= <-].
  split; [right; split; [done|]; by exists t', r', uv'|].
  split; [apply computeAlerts_ordered|].
  split; [|apply computeAlerts_ordered].
  apply (sublist_NoDup _ ALERT_ORDER); [compute_done|].
  apply computeAlerts_ordered.
Qed.

(** ** Data frames: rows and masks *)

Lemma filter_mask_map {A B} (f : A -> B) (mask : list bool) (l : list A) :
  filter_mask mask (map f l) = map f (filter_mask mask l).
Proof.
  revert l. induction mask as [|b mask IH]; intros [|x l]; simpl; try done.
  destruct b; simpl; by rewrite IH.
Qed.

Lemma filter_mask_zip_with {A B C} (f : A -> B -> C) (mask : list bool)
    (l : list A) (k : list B) :
  filter_mask mask (zip_with f l k)
  = zip_with f (filter_mask mask l) (filter_mask mask k).
Proof.
  revert l k. induction mask as [|b mask IH]; intros [|x l] [|y k]; simpl;
    try done.
  - by destruct (if b then _ else _).
  - destruct b; simpl; by rewrite IH.
Qed.

Lemma col_cells_filter (mask : list bool) (c : column) :
  col_cells (col_filter mask c) = filter_mask mask (col_cells c).
Proof. destruct c; simpl; by rewrite filter_mask_map. Qed.

Lemma filter_mask_nil {A} (mask : list bool) : filter_mask mask (@nil A) = [].
Proof. by destruct mask. Qed.

(** Selecting rows by a mask selects the same positions of every column. *)
Lemma df_rows_loc (mask : list bool) (df : DataFrame) :
  df_rows (df_loc mask df) = filter_mask mask (df_rows df).
Proof.
  induction df as [|[n c] rest IH]; simpl.
  - by rewrite filter_mask_nil.
  - destruct rest as [|nc rest].
    + simpl. by rewrite col_cells_filter, filter_mask_map.
    + change (df_loc mask (nc :: rest)) with
        ((nc.1, col_filter mask nc.2) :: df_loc mask rest) in *.
      cbv beta iota. rewrite col_cells_filter, filter_mask_zip_with.
      f_equal. exact IH.
Qed.

Lemma df_columns_loc (mask : list bool) (df : DataFrame) :
  df_columns (df_loc mask df) = df_columns df.
Proof. unfold df_columns, df_loc. rewrite map_map. done. Qed.

Lemma df_col_loc (mask : list bool) (c : string) (df : DataFrame) :
  df_col c (df_loc mask df)
  = (col ← df_col c df; mret (col_filter mask col)).
Proof.
  induction df as [|[n col] rest IH]; simpl; [done|].
  destruct (String.eqb n c); [done|exact IH].
Qed.

Lemma window_mask_map (times : list Z) (now hours_ahead : Z) :
  window_mask times now hours_ahead
  = map (fun t => (now <=? t) && (t <? now + 3600 * hours_ahead)) times.
Proof.
  unfold window_mask. induction times as [|t times IH]; simpl; [done|].
  by rewrite IH.
Qed.

Lemma select_window_ok (hourly : DataFrame) (times : list Z)
    (now hours_ahead : Z) :
  df_col "time" hourly = Ok (TimeCol times) ->
  select_window hourly now hours_ahead
  = Ok (df_loc (window_mask times now hours_ahead) hourly).
Proof. intros H. unfold select_window. by rewrite H. Qed.

(** A mask computed from the values it has kept keeps them all. *)
Lemma filter_mask_again {A B} (p : A -> bool) (l : list A) (k : list B) :
  filter_mask (map p (filter_mask (map p l) l)) (filter_mask (map p l) k)
  = filter_mask (map p l) k.
Proof.
  revert k. induction l as [|t l IH]; intros [|y k]; simpl; try done.
  - by rewrite !filter_mask_nil.
  - destruct (p t) eqn:Hp; simpl; [rewrite Hp; f_equal|]; apply IH.
Qed.

Lemma df_loc_again (p : Z -> bool) (times : list Z) (df : DataFrame) :
  df_loc (map p (filter_mask (map p times) times)) (df_loc (map p times) df)
  = df_loc (map p times) df.
Proof.
  unfold df_loc. rewrite map_map. apply map_ext. intros [n c]. simpl.
  f_equal. destruct c; simpl; by rewrite filter_mask_again.
Qed.

(** C7: window selection is idempotent: selecting from the selected window,
    with the same [now] and the same horizon, gives the same frame (and
    fails where the first selection fails).  The selection does return a
    frame whenever the series has its datetime column. *)
Theorem C7_select_window_idempotent (hourly : DataFrame) (now hours_ahead : Z) :
  (hr ← select_window hourly now hours_ahead;
   select_window hr now hours_ahead)
  = select_window hourly now hours_ahead
  /\ (forall times,
        df_col "time" hourly = Ok (TimeCol times) ->
        exists hr,
          select_window hourly now hours_ahead = Ok hr
          /\ select_window hr now hours_ahead = Ok hr).
Proof.
  assert (forall times,
            df_col "time" hourly = Ok (TimeCol times) ->
            select_window
              (df_loc (window_mask times now hours_ahead) hourly)
              now hours_ahead
            = Ok (df_loc (window_mask times now hours_ahead) hourly)) as Hagain.
  { intros times Hcol.
    rewrite (select_window_ok _ (filter_mask (window_mask times now hours_ahead) times)).
    - rewrite !window_mask_map. by rewrite df_loc_again.
    - rewrite df_col_loc, Hcol. done. }
  split.
  - destruct (df_col "time" hourly) as [[times|l]|e] eqn:Hcol.
    + rewrite (select_window_ok _ times) by done. simpl. by apply Hagain.
    + unfold select_window. by rewrite Hcol.
    + unfold select_window. by rewrite Hcol.
  - intros times Hcol. eexists. split; [by apply select_window_ok|].
    by apply Hagain.
Qed.

(** The sample read at 12:00 with a horizon of 24 hours, selected twice. *)
Example sample_window_twice :
  select_window sample_hourly 43200 24 = Ok sample_window
  /\ select_window sample_window 43200 24 = Ok sample_window.
Proof. split; reflexivity. Qed.

(** ** The window as a slice of the series *)

Lemma row_time_cons (n : string) (x : cell) (r : row) :
  row_time ((n, x) :: r)
  = if String.eqb n "time"
    then match x with CT t => Some t | CN _ => None end
    else row_time r.
Proof. unfold row_time. simpl. by destruct (String.eqb n "time"). Qed.

Lemma col_cells_length (c : column) : length (col_cells c) = col_len c.
Proof. destruct c; simpl; apply length_map. Qed.

Lemma df_rows_length (n : nat) (df : DataFrame) :
  df <> [] ->
  Forall (fun nc => col_len nc.2 = n) df ->
  length (df_rows df) = n.
Proof.
  induction df as [|[name c] rest IH]; [done|]. intros _ Hall.
  apply Forall_cons in Hall as [Hc Hrest]. simpl in Hc.
  destruct rest as [|nc rest].
  - simpl. by rewrite length_map, col_cells_length.
  - change (df_rows ((name, c) :: nc :: rest)) with
      (zip_with (fun x r => (name, x) :: r) (col_cells c)
         (df_rows (nc :: rest))).
    rewrite length_zip_with, col_cells_length, IH by done. lia.
Qed.

Lemma map_row_time_zip_other (name : string) (cells : list cell)
    (rows : list row) :
  String.eqb name "time" = false ->
  length cells = length rows ->
  map row_time (zip_with (fun x r => (name, x) :: r) cells rows)
  = map row_time rows.
Proof.
  intros Hname. revert rows.
  induction cells as [|x cells IH]; intros [|r rows]; simpl; try done.
  intros [= Hlen]. rewrite row_time_cons, Hname. f_equal. by apply IH.
Qed.

Lemma map_row_time_zip_time (times : list Z) (rows : list row) :
  length times = length rows ->
  map row_time (zip_with (fun x r => ("time", x) :: r) (map CT times) rows)
  = map Some times.
Proof.
  revert rows.
  induction times as [|t times IH]; intros [|r rows]; simpl; try done.
  intros [= Hlen]. rewrite row_time_cons. simpl. f_equal. by apply IH.
Qed.

(** The times of the rows are the datetime column, position by position. *)
Lemma df_rows_time (n : nat) (df : DataFrame) (times : list Z) :
  Forall (fun nc => col_len nc.2 = n) df ->
  df_col "time" df = Ok (TimeCol times) ->
  map row_time (df_rows df) = map Some times.
Proof.
  induction df as [|[name c] rest IH]; [done|]. intros Hall Hcol.
  apply Forall_cons in Hall as [Hc Hrest]. simpl in Hc, Hcol.
  destruct (String.eqb name "time") eqn:Hname.
  - apply String.eqb_eq in Hname as ->. injection Hcol as ->.
    destruct rest as [|nc rest].
    + simpl. rewrite !map_map. apply map_ext. intros t.
      by rewrite row_time_cons.
    + change (df_rows (("time", TimeCol times) :: nc :: rest)) with
        (zip_with (fun x r => ("time", x) :: r) (col_cells (TimeCol times))
           (df_rows (nc :: rest))).
      simpl col_cells. apply map_row_time_zip_time.
      rewrite (df_rows_length n) by done. done.
  - destruct rest as [|nc rest]; [done|].
    change (df_rows ((name, c) :: nc :: rest)) with
      (zip_with (fun x r => (name, x) :: r) (col_cells c)
         (df_rows (nc :: rest))).
    rewrite map_row_time_zip_other; [by apply IH|done|].
    rewrite col_cells_length, (df_rows_length n) by done. done.
Qed.

Lemma in_window_leb (now hours : Z) (r : row) :
  in_window now hours r
  = match row_time r with
    | Some t => (now <=? t) && (t <? now + 3600 * hours)
    | None => false
    end.
Proof.
  unfold in_window. destruct (row_time r) as [t|]; [|done].
  case_bool_decide as H.
  - symmetry. apply andb_true_iff. split; [apply Z.leb_le|apply Z.ltb_lt]; lia.
  - symmetry. apply not_true_is_false. intros Hb.
    apply andb_true_iff in Hb as [H1 H2].
    apply Z.leb_le in H1. apply Z.ltb_lt in H2. lia.
Qed.

Lemma filter_mask_rows (p : Z -> bool) (rows : list row) (times : list Z) :
  map row_time rows = map Some times ->
  filter_mask (map p times) rows
  = List.filter
      (fun r => match row_time r with Some t => p t | None => false end) rows.
Proof.
  revert times. induction rows as [|r rows IH]; intros [|t times]; simpl;
    try done.
  intros [= Ht Hrest]. rewrite Ht. destruct (p t); [f_equal|]; by apply IH.
Qed.

Lemma filter_none {A} (p : A -> bool) (l : list A) :
  Forall (fun x => p x = false) l -> List.filter p l = [].
Proof.
  induction 1 as [|x l Hx _ IH]; simpl; [done|]. by rewrite Hx.
Qed.

Lemma Forall_filter_true {A} (p : A -> bool) (l : list A) :
  Forall (fun x => p x = true) (List.filter p l).
Proof.
  induction l as [|x l IH]; simpl; [constructor|].
  destruct (p x) eqn:Hp; [by constructor|done].
Qed.

Lemma rows_from (lo : Z) (rows : list row) (times : list Z) :
  map row_time rows = map Some times ->
  Forall (Z.le lo) times ->
  Forall (fun r => exists t, row_time r = Some t /\ lo <= t) rows.
Proof.
  revert times. induction rows as [|r rows IH]; intros [|t times]; simpl;
    try done.
  intros [= Ht Hrest] Hall. apply Forall_cons in Hall as [Hlo Hall].
  constructor; [by exists t|by eapply IH].
Qed.

(** A series sorted by time splits into the points before the window, the
    window, and the points after it. *)
Lemma sorted_rows_split (now hours : Z) (rows : list row) (times : list Z) :
  map row_time rows = map Some times ->
  StronglySorted Z.le times ->
  0 <= hours ->
  rows = List.filter (before_window now) rows
         ++ List.filter (in_window now hours) rows
         ++ List.filter (after_window now hours) rows.
Proof.
  intros Hmap Hsorted Hh. revert rows Hmap.
  induction Hsorted as [|t times Hsorted IH Hle]; intros [|r rows]; simpl;
    try done.
  intros [= Ht Hrest]. specialize (IH rows Hrest).
  pose proof (rows_from t rows times Hrest Hle) as Hfrom.
  unfold before_window at 1, in_window at 1, after_window at 1. rewrite Ht.
  repeat case_bool_decide; try lia; simpl.
  - f_equal. exact IH.
  - assert (List.filter (before_window now) rows = []) as Hb.
    { apply filter_none. eapply Forall_impl; [exact Hfrom|].
      intros r' (t' & Hr' & Ht'). unfold before_window. rewrite Hr'.
      case_bool_decide; [lia|done]. }
    rewrite Hb in IH |- *. simpl in *. f_equal. exact IH.
  - assert (List.filter (before_window now) rows = []) as Hb.
    { apply filter_none. eapply Forall_impl; [exact Hfrom|].
      intros r' (t' & Hr' & Ht'). unfold before_window. rewrite Hr'.
      case_bool_decide; [lia|done]. }
    assert (List.filter (in_window now hours) rows = []) as Hi.
    { apply filter_none. eapply Forall_impl; [exact Hfrom|].
      intros r' (t' & Hr' & Ht'). unfold in_window. rewrite Hr'.
      case_bool_decide; [lia|done]. }
    rewrite Hb, Hi in IH |- *. simpl in *. f_equal. exact IH.
Qed.

Lemma hourly_window_ok (current : Current) (hourly : DataFrame)
    (times : list Z) (first hours_ahead : Z) :
  df_col "time" hourly = Ok (TimeCol times) ->
  head times = Some first ->
  hourly_window current hourly hours_ahead
  = Ok (df_loc
          (window_mask times (default first (cw_time current)) hours_ahead)
          hourly).
Proof.
  intros Hcol Hfirst. unfold hourly_window, resolve_now. rewrite Hcol. simpl.
  destruct (cw_time current) as [t|]; simpl.
  - by apply select_window_ok.
  - destruct times as [|t times]; [done|]. injection Hfirst as ->. simpl.
    by apply select_window_ok.
Qed.

Lemma df_rows_window (hourly : DataFrame) (times : list Z)
    (now hours_ahead : Z) :
  df_wf hourly ->
  df_col "time" hourly = Ok (TimeCol times) ->
  df_rows (df_loc (window_mask times now hours_ahead) hourly)
  = List.filter (in_window now hours_ahead) (df_rows hourly).
Proof.
  intros [_ Hlen] Hcol.
  rewrite df_rows_loc, window_mask_map.
  rewrite (filter_mask_rows _ _ times) by by eapply df_rows_time.
  apply filter_ext. intros r. by rewrite in_window_leb.
Qed.

(** C5: for a non-empty hourly series sorted ascending by time and a
    non-negative horizon, the window the script selects is exactly the
    points with [now <= time < now + hours_ahead] hours, in their original
    order and with their original cells, where [now] is the timestamp of
    the current conditions when present and else the time of the first
    point; the window is one contiguous run of the series, every point
    before it earlier than [now] and every point after it at or past the
    end of the horizon. *)
Theorem C5_window_is_time_slice (current : Current) (hourly : DataFrame)
    (times : list Z) (first hours_ahead : Z) :
  df_wf hourly ->
  df_col "time" hourly = Ok (TimeCol times) ->
  head times = Some first ->
  StronglySorted Z.le times ->
  0 <= hours_ahead ->
  let now := default first (cw_time current) in
  exists hr,
    hourly_window current hourly hours_ahead = Ok hr
    /\ df_columns hr = df_columns hourly
    /\ df_rows hr = List.filter (in_window now hours_ahead) (df_rows hourly)
    /\ exists before after,
         df_rows hourly = before ++ df_rows hr ++ after
         /\ Forall (fun r => before_window now r = true) before
         /\ Forall (fun r => after_window now hours_ahead r = true) after.
Proof.
  intros Hwf Hcol Hfirst Hsorted Hh now.
  eexists. split; [by eapply hourly_window_ok|].
  split; [apply df_columns_loc|].
  split; [by apply df_rows_window|].
  exists (List.filter (before_window now) (df_rows hourly)),
         (List.filter (after_window now hours_ahead) (df_rows hourly)).
  split; [|split; apply Forall_filter_true].
  rewrite df_rows_window by done.
  apply (sorted_rows_split now hours_ahead _ times); [|done..].
  destruct Hwf as [_ Hlen]. by eapply df_rows_time.
Qed.

(** The sample series read at 12:00 with a horizon of one hour: the window
    is the point of 12:00 alone. *)
Lemma C5_window_witness :
  exists hr,
    hourly_window sample_current sample_hourly 1 = Ok hr
    /\ df_columns hr = df_columns sample_hourly
    /\ df_rows hr = List.filter (in_window 43200 1) (df_rows sample_hourly)
    /\ exists before after,
         df_rows sample_hourly = before ++ df_rows hr ++ after
         /\ Forall (fun r => before_window 43200 r = true) before
         /\ Forall (fun r => after_window 43200 1 r = true) after.
Proof.
  apply (C5_window_is_time_slice sample_current sample_hourly
           [36000; 39600; 43200; 46800; 50400] 36000 1).
  - split; [compute_done|]. repeat constructor.
  - reflexivity.
  - reflexivity.
  - repeat constructor; lia.
  - lia.
Defined.

(** Without a current timestamp the window starts at the first point. *)
Example window_from_first_point :
  hourly_window (default no_current (current_weather no_time_payload))
    sample_hourly 2
  = Ok (df_loc [true; true; false; false; false] sample_hourly).
Proof. reflexivity. Qed.

(** ** Frames kept well formed *)

Lemma filter_mask_length {A B} (mask : list bool) (l : list A) (k : list B) :
  length l = length k ->
  length (filter_mask mask l) = length (filter_mask mask k).
Proof.
  revert l k. induction mask as [|b mask IH]; intros [|x l] [|y k]; simpl;
    try done.
  intros [= Hlen]. destruct b; simpl; [f_equal|]; by apply IH.
Qed.

Lemma col_len_filter (mask : list bool) (c c' : column) :
  col_len c = col_len c' ->
  col_len (col_filter mask c) = col_len (col_filter mask c').
Proof. destruct c, c'; simpl; apply filter_mask_length. Qed.

Lemma df_wf_loc (mask : list bool) (df : DataFrame) :
  df_wf df -> df_wf (df_loc mask df).
Proof.
  intros [Hnd Hlen]. split.
  - fold (df_columns (df_loc mask df)). by rewrite df_columns_loc.
  - destruct df as [|[n c] rest]; [constructor|].
    unfold df_loc. apply Forall_map. simpl in *.
    eapply Forall_impl; [exact Hlen|]. intros [n' c'] Hc'. simpl in *.
    by apply col_len_filter.
Qed.

Lemma df_numeric_loc (mask : list bool) (c : string) (df : DataFrame) :
  df_numeric c df -> df_numeric c (df_loc mask df).
Proof.
  intros Hnum col. rewrite df_col_loc.
  destruct (df_col c df) as [col'|] eqn:Hcol; simpl; [|done].
  intros [= <-]. destruct (Hnum col' Hcol) as [l ->]. simpl. by eexists.
Qed.

Lemma df_has_loc (mask : list bool) (c : string) (df : DataFrame) :
  df_has c (df_loc mask df) = df_has c df.
Proof. unfold df_has. by rewrite df_columns_loc. Qed.

Lemma hourly_window_inv (current : Current) (hourly hr : DataFrame)
    (hours_ahead : Z) :
  hourly_window current hourly hours_ahead = Ok hr ->
  exists mask, hr = df_loc mask hourly.
Proof.
  unfold hourly_window, select_window.
  destruct (df_col "time" hourly) as [col|]; simpl; [|done].
  destruct (to_datetime col) as [times|]; simpl; [|done].
  destruct (resolve_now current hourly) as [now|]; simpl; [|done].
  intros [= <-]. by eexists.
Qed.

Lemma df_has_col (c : string) (df : DataFrame) :
  df_has c df = true ->
  exists col, df_col c df = Ok col /\ (c, col) ∈ df.
Proof.
  unfold df_has, df_columns. intros H. apply bool_decide_eq_true in H.
  induction df as [|[n col] rest IH]; simpl.
  - by apply elem_of_nil in H.
  - destruct (String.eqb n c) eqn:Hn.
    + apply String.eqb_eq in Hn as ->. exists col. split; [done|]. by left.
    + apply String.eqb_neq in Hn. simpl in H.
      apply elem_of_cons in H as [->|H]; [done|].
      destruct (IH H) as (col' & Hcol & Hin). exists col'.
      split; [done|]. by right.
Qed.

(** On a frame with rows, the first cell of a float column is there. *)
Lemma df_iloc0_numeric (df : DataFrame) (c : string) :
  df_wf df ->
  df_empty df = false ->
  df_has c df = true ->
  df_numeric c df ->
  exists v, df_iloc0 df c = Ok (CN v).
Proof.
  intros [_ Hlen] Hrows Hhas Hnum.
  destruct (df_has_col c df Hhas) as (col & Hcol & Hin).
  destruct (Hnum col Hcol) as [l ->].
  assert (nrows df <> 0%nat) as Hn.
  { destruct df; [done|]. simpl in Hrows. by apply Nat.eqb_neq. }
  rewrite Forall_forall in Hlen. specialize (Hlen _ Hin). simpl in Hlen.
  unfold df_iloc0. apply Nat.eqb_neq in Hn as Hn'. rewrite Hn', Hcol. simpl.
  destruct l as [|v l]; [simpl in Hlen; lia|]. by exists v.
Qed.

(** ** Missing rain probability and empty windows *)

Lemma rain_check_zero (found : list string) : rain_check (Fin 0) found = found.
Proof. reflexivity. Qed.

Lemma alerts_total (hr : DataFrame) (current : Current) (daily : DataFrame) :
  df_wf hr -> df_wf daily ->
  df_numeric "apparent_temperature" hr ->
  df_numeric "uv_index_max" daily ->
  df_has "precipitation_probability" hr = false ->
  exists found, alerts hr current daily = Ok found.
Proof.
  intros Hwf Hwfd Hnum Hnumd Hrain. unfold alerts.
  destruct (df_empty hr) eqn:Hrows; simpl; [by eexists|].
  assert (exists t, t_now hr current = Ok t) as [t ->].
  { unfold t_now. destruct (df_has "apparent_temperature" hr) eqn:Hhas.
    - destruct (df_iloc0_numeric hr "apparent_temperature") as [v ->];
        try done. by exists v.
    - by eexists. }
  unfold rain_next6. rewrite Hrain. simpl.
  destruct (df_empty daily) eqn:Hd; simpl; [by eexists|].
  destruct (df_has "uv_index_max" daily) eqn:Huv; [|by eexists].
  destruct (df_iloc0_numeric daily "uv_index_max") as [u ->]; try done.
  by eexists.
Qed.

Lemma computeAlerts_dry (t w : num) (uv : option num) :
  RAIN_NEXT6 ∉ computeAlerts t w (Fin 0) uv.
Proof.
  unfold computeAlerts. rewrite rain_check_zero.
  destruct uv as [u|]; split_checks; compute_done.
Qed.

Lemma weather_message_dry (temp wind : num) :
  weather_message temp wind (Fin 0) <> MSG_UMBRELLA
  /\ weather_message temp wind (Fin 0) <> MSG_SHOWERS.
Proof.
  unfold weather_message.
  repeat match goal with
  | |- context [if ?b then _ else _] => destruct b; [compute_done|]
  end. compute_done.
Qed.

(** C8: when the hourly payload has no [precipitation_probability] field,
    both rain readings of the advisory code are 0 and neither raises; the
    friendly message is the one for rain probability 0, which is never one
    of the two rain messages, and no list the alerts section returns holds
    the rain-in-6-hours alert.  On well-formed frames whose
    [apparent_temperature] and [uv_index_max] columns hold numbers the
    alerts section does return. *)
Theorem C8_absent_rain_probability_is_zero (current : Current)
    (hourly hr daily : DataFrame) (hours_ahead : Z) :
  df_has "precipitation_probability" hourly = false ->
  hourly_window current hourly hours_ahead = Ok hr ->
  rain_probability hr = Ok (Fin 0)
  /\ rain_next6 hr = Ok (Fin 0)
  /\ friendly_message current hr
     = (temp ← getitem (cw_temperature current);
        wind ← getitem (cw_windspeed current);
        mret (weather_message (Fin temp) (Fin wind) (Fin 0)))
  /\ (forall temp wind : num,
        weather_message temp wind (Fin 0) <> MSG_UMBRELLA
        /\ weather_message temp wind (Fin 0) <> MSG_SHOWERS)
  /\ (forall found,
        alerts hr current daily = Ok found -> RAIN_NEXT6 ∉ found)
  /\ (df_wf hourly -> df_wf daily ->
      df_numeric "apparent_temperature" hourly ->
      df_numeric "uv_index_max" daily ->
      exists found, alerts hr current daily = Ok found).
Proof.
  intros Hrain Hwin.
  destruct (hourly_window_inv _ _ _ _ Hwin) as [mask ->].
  assert (df_has "precipitation_probability" (df_loc mask hourly) = false)
    as Hrain' by by rewrite df_has_loc.
  assert (rain_probability (df_loc mask hourly) = Ok (Fin 0)) as Hprob
    by (unfold rain_probability; by rewrite Hrain').
  assert (rain_next6 (df_loc mask hourly) = Ok (Fin 0)) as Hnext
    by (unfold rain_next6; by rewrite Hrain').
  split; [done|]. split; [done|].
  split; [unfold friendly_message; by rewrite Hprob|].
  split; [exact weather_message_dry|].
  split.
  - intros found Hrun.
    destruct (alerts_computeAlerts _ _ _ _ Hrun)
      as [[_ ->]|(t & r & uv & _ & Hr & ->)]; [apply not_elem_of_nil|].
    rewrite Hnext in Hr. injection Hr as <-. apply computeAlerts_dry.
  - intros Hwf Hwfd Hnum Hnumd. apply alerts_total; try done.
    + by apply df_wf_loc.
    + by apply df_numeric_loc.
Qed.

Lemma C8_absent_rain_witness :
  let hourly := df_drop "precipitation_probability" sample_hourly in
  let hr := df_loc [false; false; true; true; true] hourly in
  rain_probability hr = Ok (Fin 0)
  /\ rain_next6 hr = Ok (Fin 0)
  /\ friendly_message sample_current hr
     = (temp ← getitem (cw_temperature sample_current);
        wind ← getitem (cw_windspeed sample_current);
        mret (weather_message (Fin temp) (Fin wind) (Fin 0)))
  /\ (forall temp wind : num,
        weather_message temp wind (Fin 0) <> MSG_UMBRELLA
        /\ weather_message temp wind (Fin 0) <> MSG_SHOWERS)
  /\ (forall found,
        alerts hr sample_current sample_daily = Ok found ->
        RAIN_NEXT6 ∉ found)
  /\ (df_wf hourly -> df_wf sample_daily ->
      df_numeric "apparent_temperature" hourly ->
      df_numeric "uv_index_max" sample_daily ->
      exists found, alerts hr sample_current sample_daily = Ok found).
Proof.
  apply (C8_absent_rain_probability_is_zero sample_current
           (df_drop "precipitation_probability" sample_hourly)
           (df_loc [false; false; true; true; true]
              (df_drop "precipitation_probability" sample_hourly))
           sample_daily 24).
  - reflexivity.
  - reflexivity.
Defined.

(** Without the rain column the sample gets the pleasant-day message and
    the UV alert alone. *)
Example sample_without_rain_column :
  let hr :=
    df_loc [false; false; true; true; true]
      (df_drop "precipitation_probability" sample_hourly) in
  friendly_message sample_current hr = Ok MSG_PLEASANT
  /\ alerts hr sample_current sample_daily = Ok [EXTREME_UV].
Proof. split; reflexivity. Qed.

(** C10: whenever the selected window is empty the alerts section returns
    the empty list and writes no warning, whatever today's [uv_index_max]
    is: all four checks, the UV check on the daily frame among them, sit
    under the test that the window has rows. *)
Theorem C10_empty_window_no_alerts (hr : DataFrame) (current : Current)
    (daily : DataFrame) (page : list widget) :
  df_empty hr = true ->
  alerts hr current daily = Ok []
  /\ alerts_section (Some hr) current daily page = (page, Ok tt).
Proof.
  intros Hempty.
  assert (alerts hr current daily = Ok []) as Hal
    by (unfold alerts; by rewrite Hempty).
  split; [done|].
  unfold alerts_section, read_var, lift, mbind, St_bind. by rewrite Hal.
Qed.

Lemma C10_empty_window_witness :
  alerts empty_window sample_current sample_daily = Ok []
  /\ alerts_section (Some empty_window) sample_current sample_daily []
     = ([], Ok tt).
Proof.
  apply (C10_empty_window_no_alerts empty_window sample_current sample_daily []).
  reflexivity.
Defined.

(** With rows in the window the same daily frame, UV index 9, does raise
    the UV alert. *)
Example sample_window_alerts :
  alerts sample_window sample_current sample_daily
  = Ok [RAIN_NEXT6; EXTREME_UV].
Proof. reflexivity. Qed.

(** ** Runs of the whole script *)

(** C4: the window of an empty series, or of a series with no point in
    range, is empty, but the script does not skip every consumer of it.
    Without an hourly series [hr] is never bound and the alerts section
    raises [NameError] after the four cards; with a series that has the
    rain column but no point in range the friendly message reads the first
    row of the empty window and raises [IndexError]. *)
Theorem C4_empty_window_raises :
  run chennai no_hourly_payload 24 true = (sample_head, Raise NameError)
  /\ hourly_window (default no_current (current_weather late_payload))
       sample_hourly 24 = Ok empty_window
  /\ df_rows empty_window = []
  /\ friendly_message (default no_current (current_weather late_payload))
       empty_window = Raise IndexError
  /\ snd (run chennai late_payload 24 true) = Raise IndexError.
Proof. repeat split; reflexivity. Qed.

(** C6: a payload with every field present fills every section, but the
    removal of one field is not always confined to its section: without
    the hourly [apparent_temperature] the table section selects five
    columns, assigns six labels and raises [ValueError]; without the daily
    [uv_index_max] the Today cards raise [KeyError]; without the current
    timestamp the header raises [AttributeError].  With the table switched
    off the first removal is tolerated. *)
Theorem C6_missing_field_raises :
  snd (run chennai sample_payload 24 true) = Ok tt
  /\ map widget_label (fst (run chennai sample_payload 24 true))
     = ["style"; "header"; "Temperature"; "Feels Like"; "Wind Speed";
        "Wind Direction"; "Feels Like"; "message"; "alert"; "alert";
        "subheader"; "Temperature (Next Hours)"; "Precipitation Probability";
        "Wind Speed"; "subheader"; "High"; "Low"; "Feels Max"; "Sunrise";
        "Sunset"; "UV Index Max"; "heading"; "rain bar"; "heading"; "table";
        "caption"]
  /\ snd (run chennai no_apparent_payload 24 true) = Raise ValueError
  /\ snd (run chennai no_apparent_payload 24 false) = Ok tt
  /\ snd (run chennai no_uv_payload 24 true) = Raise KeyError
  /\ snd (run chennai no_time_payload 24 true) = Raise AttributeError.
Proof. repeat split; reflexivity. Qed.

(** * Further properties of the script *)

(** ** Window selection: horizons, bounds, invariants *)

(** A mask whose test implies the test of an earlier mask selects, from
    what the earlier mask kept, what it selects from the whole. *)
Lemma filter_mask_narrow {A B} (p q : A -> bool) (l : list A) (k : list B) :
  (forall x, p x = true -> q x = true) ->
  filter_mask (map p (filter_mask (map q l) l)) (filter_mask (map q l) k)
  = filter_mask (map p l) k.
Proof.
  intros Hpq. revert k.
  induction l as [|t l IH]; intros [|y k]; simpl; try done.
  - by rewrite !filter_mask_nil.
  - destruct (q t) eqn:Hq; simpl.
    + destruct (p t); [f_equal|]; apply IH.
    + destruct (p t) eqn:Hp; [|apply IH].
      apply Hpq in Hp. congruence.
Qed.

(** A mask applied to what a narrower mask kept drops nothing. *)
Lemma filter_mask_widen {A B} (p q : A -> bool) (l : list A) (k : list B) :
  (forall x, p x = true -> q x = true) ->
  filter_mask (map q (filter_mask (map p l) l)) (filter_mask (map p l) k)
  = filter_mask (map p l) k.
Proof.
  intros Hpq. revert k.
  induction l as [|t l IH]; intros [|y k]; simpl; try done.
  - by rewrite !filter_mask_nil.
  - destruct (p t) eqn:Hp; simpl; [|apply IH].
    rewrite (Hpq _ Hp). f_equal. apply IH.
Qed.

Lemma df_loc_loc (p q : Z -> bool) (times : list Z) (df : DataFrame) :
  (forall x, p x = true -> q x = true) ->
  df_loc (map p (filter_mask (map q times) times)) (df_loc (map q times) df)
  = df_loc (map p times) df
  /\ df_loc (map q (filter_mask (map p times) times)) (df_loc (map p times) df)
     = df_loc (map p times) df.
Proof.
  intros Hpq. unfold df_loc. rewrite !map_map.
  split; apply map_ext; intros [n c]; simpl; f_equal; destruct c; simpl;
    by rewrite ?(filter_mask_narrow p q), ?(filter_mask_widen p q).
Qed.

Lemma window_test_mono (now h1 h2 t : Z) :
  h1 <= h2 ->
  (now <=? t) && (t <? now + 3600 * h1) = true ->
  (now <=? t) && (t <? now + 3600 * h2) = true.
Proof.
  intros Hh H. apply andb_true_iff in H as [H1 H2].
  apply andb_true_iff. split; [done|].
  apply Z.ltb_lt in H2. apply Z.ltb_lt. lia.
Qed.

(** X1: selecting with two horizons in a row, in either order and with the
    same [now], is selecting with the smaller one. *)
Theorem select_window_smaller_horizon (hourly : DataFrame)
    (now h1 h2 : Z) :
  h1 <= h2 ->
  (hr ← select_window hourly now h2; select_window hr now h1)
  = select_window hourly now h1
  /\ (hr ← select_window hourly now h1; select_window hr now h2)
     = select_window hourly now h1.
Proof.
  intros Hh.
  destruct (df_col "time" hourly) as [[times|l]|e] eqn:Hcol;
    [|unfold select_window; by rewrite Hcol..].
  rewrite !(select_window_ok _ times) by done. simpl.
  pose proof (df_loc_loc
                (fun t => (now <=? t) && (t <? now + 3600 * h1))
                (fun t => (now <=? t) && (t <? now + 3600 * h2))
                times hourly
                (fun t => window_test_mono now h1 h2 t Hh)) as [Hn Hw].
  split.
  - rewrite (select_window_ok _ (filter_mask (window_mask times now h2) times))
      by (rewrite df_col_loc, Hcol; done).
    rewrite !window_mask_map. by rewrite Hn.
  - rewrite (select_window_ok _ (filter_mask (window_mask times now h1) times))
      by (rewrite df_col_loc, Hcol; done).
    rewrite !window_mask_map. by rewrite Hw.
Qed.

Lemma select_window_smaller_horizon_witness :
  (hr ← select_window sample_hourly 43200 24; select_window hr 43200 1)
  = select_window sample_hourly 43200 1
  /\ (hr ← select_window sample_hourly 43200 1; select_window hr 43200 24)
     = select_window sample_hourly 43200 1.
Proof. apply (select_window_smaller_horizon sample_hourly 43200 1 24). lia. Defined.

Lemma filter_mask_all_false {A} (mask : list bool) (l : list A) :
  Forall (fun b => b = false) mask -> filter_mask mask l = [].
Proof.
  intros H. revert l. induction H as [|b mask -> _ IH]; intros [|x l]; simpl;
    try done.
Qed.

Lemma df_empty_loc_all_false (mask : list bool) (df : DataFrame) :
  Forall (fun b => b = false) mask -> df_empty (df_loc mask df) = true.
Proof.
  intros H. destruct df as [|[n c] rest]; [done|]. simpl.
  destruct c; simpl; by rewrite filter_mask_all_false.
Qed.

(** X2: when no point of the series lies in [now, now + hours_ahead hours),
    in particular when the horizon is zero or negative, the selection still
    returns a frame: it has the columns of the series and no rows. *)
Theorem select_window_out_of_range (hourly : DataFrame) (times : list Z)
    (now hours_ahead : Z) :
  df_col "time" hourly = Ok (TimeCol times) ->
  hours_ahead <= 0
  \/ Forall (fun t => t < now \/ now + 3600 * hours_ahead <= t) times ->
  exists hr,
    select_window hourly now hours_ahead = Ok hr
    /\ df_empty hr = true
    /\ df_columns hr = df_columns hourly.
Proof.
  intros Hcol Hout. eexists. split; [by apply select_window_ok|].
  split; [|apply df_columns_loc].
  apply df_empty_loc_all_false. rewrite window_mask_map.
  apply Forall_map. destruct Hout as [Hh|Hall].
  - apply Forall_forall. intros t _. cbv beta.
    apply not_true_is_false. intros Hb. apply andb_true_iff in Hb as [H1 H2].
    apply Z.leb_le in H1. apply Z.ltb_lt in H2. lia.
  - eapply Forall_impl; [exact Hall|]. intros t Ht. cbv beta in *.
    apply not_true_is_false. intros Hb. apply andb_true_iff in Hb as [H1 H2].
    apply Z.leb_le in H1. apply Z.ltb_lt in H2. lia.
Qed.

Lemma select_window_out_of_range_witness :
  exists hr,
    select_window sample_hourly 90000 24 = Ok hr
    /\ df_empty hr = true
    /\ df_columns hr = df_columns sample_hourly.
Proof.
  apply (select_window_out_of_range sample_hourly
           [36000; 39600; 43200; 46800; 50400] 90000 24).
  - reflexivity.
  - right. repeat (constructor; [lia|]). constructor.
Defined.

Lemma filter_mask_shorter {A} (mask : list bool) (l : list A) :
  (length (filter_mask mask l) <= length l)%nat.
Proof.
  revert l. induction mask as [|b mask IH]; intros [|x l]; simpl; try lia.
  specialize (IH l). destruct b; simpl; lia.
Qed.

Lemma nrows_loc (mask : list bool) (df : DataFrame) :
  (nrows (df_loc mask df) <= nrows df)%nat.
Proof.
  destruct df as [|[n c] rest]; [done|]. simpl.
  destruct c; simpl; apply filter_mask_shorter.
Qed.

(** X3: selection keeps the columns of the series and their order, never
    adds rows, keeps a well-formed frame well formed and a column of numbers
    a column of numbers. *)
Theorem select_window_keeps_frame (hourly hr : DataFrame)
    (now hours_ahead : Z) :
  select_window hourly now hours_ahead = Ok hr ->
  df_columns hr = df_columns hourly
  /\ (nrows hr <= nrows hourly)%nat
  /\ (df_wf hourly -> df_wf hr)
  /\ (forall c, df_numeric c hourly -> df_numeric c hr).
Proof.
  unfold select_window.
  destruct (df_col "time" hourly) as [col|]; simpl; [|done].
  destruct (to_datetime col) as [times|]; simpl; [|done].
  intros [= <-]. split; [apply df_columns_loc|]. split; [apply nrows_loc|].
  split; [apply df_wf_loc|]. intros c. apply df_numeric_loc.
Qed.

Lemma select_window_keeps_frame_witness :
  df_columns sample_window = df_columns sample_hourly
  /\ (nrows sample_window <= nrows sample_hourly)%nat
  /\ (df_wf sample_hourly -> df_wf sample_window)
  /\ (forall c, df_numeric c sample_hourly -> df_numeric c sample_window).
Proof.
  apply (select_window_keeps_frame sample_hourly sample_window 43200 24).
  reflexivity.
Defined.

Lemma df_col_elem (c : string) (df : DataFrame) (col : column) :
  df_col c df = Ok col -> (c, col) ∈ df.
Proof.
  induction df as [|[n col'] rest IH]; simpl; [done|].
  destruct (String.eqb n c) eqn:Hn.
  - apply String.eqb_eq in Hn as ->. intros [= ->]. by left.
  - intros H. right. by apply IH.
Qed.

Lemma filter_mask_self {A} (p : A -> bool) (l : list A) :
  filter_mask (map p l) l = List.filter p l.
Proof.
  induction l as [|x l IH]; simpl; [done|]. destruct (p x); by rewrite IH.
Qed.

Lemma spaced_from (t : Z) (l : list Z) :
  StronglySorted (fun a b => a + 3600 <= b) (t :: l) ->
  Forall (Z.le (t + 3600)) l.
Proof. intros H. by apply StronglySorted_inv in H as [_ H]. Qed.

Lemma count_before_end (l : list Z) (lo h : Z) :
  StronglySorted (fun a b => a + 3600 <= b) l ->
  Forall (Z.le lo) l ->
  0 <= h ->
  (length (List.filter (fun t => (t <? lo + 3600 * h)%Z) l) <= Z.to_nat h)%nat.
Proof.
  intros Hs. revert lo h.
  induction Hs as [|t l Hs IH Hgap]; intros lo h Hlo Hh; simpl; [lia|].
  apply Forall_cons in Hlo as [Ht Hlo].
  destruct (Z.ltb_spec t (lo + 3600 * h)) as [Hin|Hout]; simpl.
  - assert (Forall (Z.le (lo + 3600)) l) as Hlo'.
    { eapply Forall_impl; [exact Hgap|]. intros y Hy. simpl in Hy. lia. }
    specialize (IH (lo + 3600) (h - 1) Hlo' ltac:(lia)).
    replace (lo + 3600 + 3600 * (h - 1)) with (lo + 3600 * h) in IH by lia.
    lia.
  - specialize (IH lo h Hlo Hh). lia.
Qed.

Lemma count_in_window (l : list Z) (now h : Z) :
  StronglySorted (fun a b => a + 3600 <= b) l ->
  0 <= h ->
  (length
     (List.filter (fun t => ((now <=? t) && (t <? now + 3600 * h))%Z) l)
   <= Z.to_nat h)%nat.
Proof.
  intros Hs Hh. induction Hs as [|t l Hs IH Hgap]; simpl; [lia|].
  destruct (Z.leb_spec now t) as [Hle|Hlt]; simpl; [|exact IH].
  pose proof (count_before_end (t :: l) now h) as Hc.
  simpl in Hc.
  assert (List.filter (fun t0 => (now <=? t0) && (t0 <? now + 3600 * h)) l
          = List.filter (fun t0 => t0 <? now + 3600 * h) l) as Heq.
  { apply filter_ext_in. intros y Hy.
    rewrite Forall_forall in Hgap. apply list_elem_of_In in Hy.
    specialize (Hgap y Hy). simpl in Hgap.
    destruct (Z.leb_spec now y); [done|lia]. }
  rewrite Heq. apply Hc; [|constructor|lia].
  - by constructor.
  - done.
  - eapply Forall_impl; [exact Hgap|]. intros y Hy. simpl in Hy. lia.
Qed.

(** X4: on a series with at least an hour between consecutive points (one
    entry per hour), a window of [hours_ahead] hours has at most
    [hours_ahead] rows. *)
Theorem select_window_at_most_horizon_rows (hourly hr : DataFrame)
    (times : list Z) (now hours_ahead : Z) :
  df_wf hourly ->
  df_col "time" hourly = Ok (TimeCol times) ->
  StronglySorted (fun a b => a + 3600 <= b) times ->
  0 <= hours_ahead ->
  select_window hourly now hours_ahead = Ok hr ->
  (nrows hr <= Z.to_nat hours_ahead)%nat.
Proof.
  intros Hwf Hcol Hs Hh Hsel.
  rewrite (select_window_ok _ times) in Hsel by done. injection Hsel as <-.
  pose proof (df_wf_loc (window_mask times now hours_ahead) hourly Hwf)
    as [_ Hlen].
  assert (df_col "time" (df_loc (window_mask times now hours_ahead) hourly)
          = Ok (TimeCol (filter_mask (window_mask times now hours_ahead) times)))
    as Hcol' by (rewrite df_col_loc, Hcol; done).
  apply df_col_elem in Hcol'. rewrite Forall_forall in Hlen.
  specialize (Hlen _ Hcol'). simpl in Hlen. rewrite <- Hlen.
  rewrite window_mask_map, filter_mask_self. by apply count_in_window.
Qed.

Lemma select_window_at_most_horizon_rows_witness :
  (nrows (df_loc [false; false; true; true; false] sample_hourly)
   <= Z.to_nat 2)%nat.
Proof.
  apply (select_window_at_most_horizon_rows sample_hourly
           (df_loc [false; false; true; true; false] sample_hourly)
           [36000; 39600; 43200; 46800; 50400] 43200 2).
  - split; [compute_done|]. repeat constructor.
  - reflexivity.
  - repeat constructor; lia.
  - lia.
  - reflexivity.
Defined.

(** ** Alerts: what fires them, what cannot *)

Lemma Qmax_ge (k a b : Q) :
  Qle_bool k (Qmax a b) = Qle_bool k a || Qle_bool k b.
Proof.
  unfold Qmax. destruct (Qle_bool a b) eqn:Hab.
  - destruct (Qle_bool k a) eqn:Hka; [|done]. simpl.
    apply Qle_bool_iff. apply Qle_bool_iff in Hab, Hka. by eapply Qle_trans.
  - destruct (Qle_bool k b) eqn:Hkb; [|by rewrite orb_false_r].
    rewrite orb_true_r. apply Qle_bool_iff. apply Qle_bool_iff in Hkb.
    assert (~ (a <= b)%Q) as Hnab
      by (intros H; apply Qle_bool_iff in H; congruence).
    apply Qnot_le_lt in Hnab. eapply Qle_trans; [exact Hkb|].
    by apply Qlt_le_weak.
Qed.

(** The maximum reaches a threshold exactly when some value does. *)
Lemma num_max_ge (l : list num) (k : Q) :
  num_ge (num_max l) k = existsb (fun x => num_ge x k) l.
Proof.
  induction l as [|[q|] l IH]; simpl; [done| |exact IH].
  destruct (num_max l) as [m|]; simpl in *.
  - by rewrite Qmax_ge, IH.
  - by rewrite <- IH, orb_false_r.
Qed.

Lemma existsb_num_ge (l : list num) (k : Q) :
  existsb (fun x => num_ge x k) l = true
  <-> exists q, Fin q ∈ l /\ (k <= q)%Q.
Proof.
  rewrite existsb_exists. split.
  - intros ([q|] & Hin & Hge); [|done]. exists q.
    split; [by apply list_elem_of_In|by apply Qle_bool_iff].
  - intros (q & Hin & Hge). exists (Fin q).
    split; [by apply list_elem_of_In|by apply Qle_bool_iff].
Qed.

Lemma df_col_head (n : nat) (c : string) (df : DataFrame) :
  df_col c (df_head n df) = (col ← df_col c df; mret (col_head n col)).
Proof.
  induction df as [|[n' col] rest IH]; simpl; [done|].
  destruct (String.eqb n' c); [done|exact IH].
Qed.

Lemma df_col_has (c : string) (df : DataFrame) (col : column) :
  df_col c df = Ok col -> df_has c df = true.
Proof.
  intros H. apply df_col_elem in H. apply bool_decide_eq_true.
  unfold df_columns. apply list_elem_of_fmap. by exists (c, col).
Qed.

Lemma df_has_false_col (c : string) (df : DataFrame) :
  df_has c df = false -> df_col c df = Raise KeyError.
Proof.
  intros H. destruct (df_col c df) as [col|e] eqn:Hcol.
  - apply df_col_has in Hcol. congruence.
  - clear H. induction df as [|[n col] rest IH]; simpl in *; [congruence|].
    destruct (String.eqb n c); [done|by apply IH].
Qed.

(** What a returned alert list was computed from. *)
Lemma alerts_inv (hr : DataFrame) (current : Current) (daily : DataFrame)
    (found : list string) :
  alerts hr current daily = Ok found ->
  (df_empty hr = true /\ found = [])
  \/ (df_empty hr = false
      /\ exists t r uv,
           t_now hr current = Ok t
           /\ rain_next6 hr = Ok r
           /\ (negb (df_empty daily) && df_has "uv_index_max" daily = false ->
               uv = None)
           /\ found = computeAlerts t (ws_now current) r uv).
Proof.
  unfold alerts. destruct (df_empty hr); simpl; [intros [= <-]; by left|].
  destruct (t_now hr current) as [t|]; simpl; [|discriminate].
  destruct (rain_next6 hr) as [r|]; simpl; [|discriminate].
  destruct (negb (df_empty daily) && df_has "uv_index_max" daily).
  - destruct (df_iloc0 daily "uv_index_max") as [x|]; simpl; [|discriminate].
    destruct (cell_num x) as [u|]; simpl; [|discriminate].
    intros [= <-]. right. split; [done|]. by exists t, r, (Some u).
  - intros [= <-]. right. split; [done|]. by exists t, r, None.
Qed.

Lemma computeAlerts_rain (t w r : num) (uv : option num) :
  RAIN_NEXT6 ∈ computeAlerts t w r uv <-> num_ge r 70 = true.
Proof. destruct uv as [u|]; split_checks; compute_done. Qed.

(** X5: the rain alert is raised exactly when one of the first six
    precipitation probabilities of the window, missing values aside, is 70
    or more; later hours play no part. *)
Theorem rain_alert_iff_first_six (hr : DataFrame) (current : Current)
    (daily : DataFrame) (found : list string) (probs : list num) :
  df_col "precipitation_probability" hr = Ok (NumCol probs) ->
  df_empty hr = false ->
  alerts hr current daily = Ok found ->
  (RAIN_NEXT6 ∈ found <-> exists q, Fin q ∈ take 6 probs /\ (70 <= q)%Q).
Proof.
  intros Hcol Hrows Hrun.
  destruct (alerts_inv _ _ _ _ Hrun)
    as [[? _]|(_ & t & r & uv & _ & Hr & _ & ->)]; [congruence|].
  unfold rain_next6 in Hr. rewrite (df_col_has _ _ _ Hcol) in Hr.
  rewrite df_col_head, Hcol in Hr. simpl in Hr. injection Hr as <-.
  by rewrite computeAlerts_rain, num_max_ge, existsb_num_ge.
Qed.

Lemma rain_alert_iff_first_six_witness :
  RAIN_NEXT6 ∈ [RAIN_NEXT6; EXTREME_UV]
  <-> exists q, Fin q ∈ take 6 [Fin 20; Fin 75; Fin 40] /\ (70 <= q)%Q.
Proof.
  apply (rain_alert_iff_first_six sample_window sample_current sample_daily
           [RAIN_NEXT6; EXTREME_UV] [Fin 20; Fin 75; Fin 40]);
    reflexivity.
Defined.

Lemma rain_next6_numeric (hr : DataFrame) :
  df_numeric "precipitation_probability" hr ->
  exists r, rain_next6 hr = Ok r.
Proof.
  intros Hnum. unfold rain_next6.
  destruct (df_has "precipitation_probability" hr) eqn:Hhas; [|by eexists].
  destruct (df_has_col _ _ Hhas) as (col & Hcol & _).
  destruct (Hnum col Hcol) as [l ->].
  rewrite df_col_head, Hcol. simpl. by eexists.
Qed.

Lemma computeAlerts_length (t w r : num) (uv : option num) :
  (length (computeAlerts t w r uv) <= 4)%nat.
Proof. destruct uv as [u|]; split_checks; lia. Qed.

Lemma alerts_returns (hr : DataFrame) (current : Current)
    (daily : DataFrame) :
  df_wf hr ->
  df_wf daily ->
  df_numeric "apparent_temperature" hr ->
  df_numeric "precipitation_probability" hr ->
  df_numeric "uv_index_max" daily ->
  exists found,
    alerts hr current daily = Ok found /\ (length found <= 4)%nat.
Proof.
  intros Hwf Hwfd Hnum Hrain Hnumd. unfold alerts.
  destruct (df_empty hr) eqn:Hrows; simpl.
  { exists []. split; [done|simpl; lia]. }
  assert (exists t, t_now hr current = Ok t) as [t ->].
  { unfold t_now. destruct (df_has "apparent_temperature" hr) eqn:Hhas.
    - destruct (df_iloc0_numeric hr "apparent_temperature") as [v ->];
        try done. by exists v.
    - by eexists. }
  destruct (rain_next6_numeric hr Hrain) as [r ->]. simpl.
  destruct (df_empty daily) eqn:Hd; simpl.
  { eexists. split; [done|].
    apply (computeAlerts_length t (ws_now current) r None). }
  destruct (df_has "uv_index_max" daily) eqn:Huv.
  - destruct (df_iloc0_numeric daily "uv_index_max") as [u ->]; try done.
    simpl. eexists. split; [done|].
    apply (computeAlerts_length t (ws_now current) r (Some u)).
  - eexists. split; [done|].
    apply (computeAlerts_length t (ws_now current) r None).
Qed.

(** X6: on well-formed frames whose [apparent_temperature],
    [precipitation_probability] and [uv_index_max] columns, where present,
    hold numbers, the alerts section raises nothing and returns at most four
    alerts, whatever the current conditions hold or lack. *)
Theorem alerts_never_raise (hr : DataFrame) (current : Current)
    (daily : DataFrame) :
  df_wf hr ->
  df_wf daily ->
  df_numeric "apparent_temperature" hr ->
  df_numeric "precipitation_probability" hr ->
  df_numeric "uv_index_max" daily ->
  exists found,
    alerts hr current daily = Ok found /\ (length found <= 4)%nat.
Proof. apply alerts_returns. Qed.

Lemma sample_frames_typed :
  df_wf sample_window /\ df_wf sample_daily
  /\ df_numeric "apparent_temperature" sample_window
  /\ df_numeric "precipitation_probability" sample_window
  /\ df_numeric "uv_index_max" sample_daily.
Proof.
  split; [split; [compute_done|repeat constructor]|].
  split; [split; [compute_done|repeat constructor]|].
  repeat split; intros col H; vm_compute in H; injection H as <-; by eexists.
Defined.

Lemma alerts_never_raise_witness :
  exists found,
    alerts sample_window sample_current sample_daily = Ok found
    /\ (length found <= 4)%nat.
Proof.
  destruct sample_frames_typed as (H1 & H2 & H3 & H4 & H5).
  exact (alerts_never_raise sample_window sample_current sample_daily
           H1 H2 H3 H4 H5).
Defined.

Lemma computeAlerts_calm (t r : num) (uv : option num) :
  (GALE_WARNING ∉ computeAlerts t (Fin 0) r uv)
  /\ (HIGH_WIND ∉ computeAlerts t (Fin 0) r uv).
Proof.
  change (computeAlerts t (Fin 0) r uv)
    with (match uv with
          | Some u => uv_check u (rain_check r (heat_check t []))
          | None => rain_check r (heat_check t [])
          end).
  destruct uv as [u|]; split_checks; split; compute_done.
Qed.

Lemma computeAlerts_mild (w r : num) (uv : option num) :
  (SEVERE_HEAT ∉ computeAlerts (Fin 0) w r uv)
  /\ (HEAT_CAUTION ∉ computeAlerts (Fin 0) w r uv).
Proof.
  change (computeAlerts (Fin 0) w r uv)
    with (match uv with
          | Some u => uv_check u (rain_check r (wind_check w []))
          | None => rain_check r (wind_check w [])
          end).
  destruct uv as [u|]; split_checks; split; compute_done.
Qed.

Lemma computeAlerts_no_uv (t w r : num) :
  EXTREME_UV ∉ computeAlerts t w r None.
Proof. split_checks; compute_done. Qed.

(** X7: a reading the payload lacks falls back to 0 and so raises no alert:
    without a current wind speed no list the alerts section returns holds a
    wind alert; without the hourly apparent temperature and the current
    temperature none holds a heat alert; without today's [uv_index_max]
    none holds the UV alert. *)
Theorem absent_readings_raise_no_alert (hr : DataFrame) (current : Current)
    (daily : DataFrame) (found : list string) :
  alerts hr current daily = Ok found ->
  (cw_windspeed current = None ->
   (GALE_WARNING ∉ found) /\ (HIGH_WIND ∉ found))
  /\ (df_has "apparent_temperature" hr = false ->
      cw_temperature current = None ->
      (SEVERE_HEAT ∉ found) /\ (HEAT_CAUTION ∉ found))
  /\ (df_has "uv_index_max" daily = false -> EXTREME_UV ∉ found).
Proof.
  intros Hrun.
  destruct (alerts_inv _ _ _ _ Hrun)
    as [[_ ->]|(_ & t & r & uv & Ht & _ & Huv & ->)].
  { repeat split; intros; apply not_elem_of_nil. }
  split; [|split].
  - intros Hw. unfold ws_now. rewrite Hw. apply computeAlerts_calm.
  - intros Hhas Htemp. unfold t_now in Ht. rewrite Hhas, Htemp in Ht.
    injection Ht as <-. apply computeAlerts_mild.
  - intros Hno. rewrite Huv by (rewrite Hno; apply andb_false_r).
    apply computeAlerts_no_uv.
Qed.

(** The sample window read with current conditions that hold nothing but
    the time, on a day without [uv_index_max]. *)
Lemma absent_readings_raise_no_alert_witness :
  let current := mkCurrent None None None None (Some 43200) in
  let hr := df_drop "apparent_temperature" sample_window in
  let daily := df_drop "uv_index_max" sample_daily in
  (cw_windspeed current = None ->
   (GALE_WARNING ∉ [RAIN_NEXT6]) /\ (HIGH_WIND ∉ [RAIN_NEXT6]))
  /\ (df_has "apparent_temperature" hr = false ->
      cw_temperature current = None ->
      (SEVERE_HEAT ∉ [RAIN_NEXT6]) /\ (HEAT_CAUTION ∉ [RAIN_NEXT6]))
  /\ (df_has "uv_index_max" daily = false -> EXTREME_UV ∉ [RAIN_NEXT6]).
Proof.
  apply (absent_readings_raise_no_alert
           (df_drop "apparent_temperature" sample_window)
           (mkCurrent None None None None (Some 43200))
           (df_drop "uv_index_max" sample_daily) [RAIN_NEXT6]).
  reflexivity.
Defined.

(** X8: when the window has an [apparent_temperature] column the alerts
    depend on the current conditions through the wind speed alone: the
    current temperature, direction, weather code and time play no part. *)
Theorem alerts_use_wind_speed_only (hr : DataFrame)
    (current current' : Current) (daily : DataFrame) :
  df_has "apparent_temperature" hr = true ->
  cw_windspeed current = cw_windspeed current' ->
  alerts hr current daily = alerts hr current' daily.
Proof.
  intros Hhas Hw. unfold alerts, t_now, ws_now. by rewrite Hhas, Hw.
Qed.

Lemma alerts_use_wind_speed_only_witness :
  alerts sample_window sample_current sample_daily
  = alerts sample_window
      (mkCurrent None (Some 12%Q) None None None) sample_daily.
Proof.
  apply (alerts_use_wind_speed_only sample_window sample_current
           (mkCurrent None (Some 12%Q) None None None) sample_daily);
    reflexivity.
Defined.

(** ** Friendly message: what it reads and when it raises *)

Lemma df_iloc0_no_rows (df : DataFrame) (c : string) :
  df_empty df = true -> df_iloc0 df c = Raise IndexError.
Proof.
  unfold df_iloc0. destruct df as [|nc rest]; [done|]. simpl.
  by intros ->.
Qed.

(** X9: the friendly message raises [IndexError] on a window without rows
    that has the rain column, before the current conditions are looked at;
    otherwise it raises [KeyError] when the current temperature or wind
    speed is missing (fields the cards above show as a dash), and with both
    present it is [weather_message] of them and the first rain
    probability. *)
Theorem friendly_message_raises (current : Current) (hr : DataFrame) :
  (df_has "precipitation_probability" hr = true ->
   df_empty hr = true ->
   friendly_message current hr = Raise IndexError)
  /\ (forall p,
        rain_probability hr = Ok p ->
        cw_temperature current = None \/ cw_windspeed current = None ->
        friendly_message current hr = Raise KeyError)
  /\ (forall p temp wind,
        rain_probability hr = Ok p ->
        cw_temperature current = Some temp ->
        cw_windspeed current = Some wind ->
        friendly_message current hr
        = Ok (weather_message (Fin temp) (Fin wind) p)).
Proof.
  unfold friendly_message. split; [|split].
  - intros Hhas Hempty. unfold rain_probability.
    by rewrite Hhas, df_iloc0_no_rows.
  - intros p -> [Ht|Hw]; simpl.
    + by rewrite Ht.
    + rewrite Hw. by destruct (cw_temperature current).
  - intros p temp wind -> -> ->. done.
Qed.

Lemma exceeds_lt (q k : Q) : exceeds (Fin q) k = true <-> (k < q)%Q.
Proof.
  simpl. destruct (Qlt_le_dec k q) as [H|H]; split; try done.
  intros H'. lra.
Qed.

Lemma below_lt (q k : Q) : below (Fin q) k = true <-> (q < k)%Q.
Proof.
  simpl. destruct (Qlt_le_dec q k) as [H|H]; split; try done.
  intros H'. lra.
Qed.

Lemma exceeds_false (q k : Q) : (q <= k)%Q -> exceeds (Fin q) k = false.
Proof.
  intros H. apply not_true_is_false. intros H'. apply exceeds_lt in H'. lra.
Qed.

Lemma below_false (q k : Q) : (k <= q)%Q -> below (Fin q) k = false.
Proof.
  intros H. apply not_true_is_false. intros H'. apply below_lt in H'. lra.
Qed.

(** X10: wind and rain are consulted only for temperatures from 18 to 30:
    above 30 or below 18 the message is the same whatever the wind speed and
    the rain probability are; and from a wind speed above 20 on the rain
    probability plays no part at any temperature. *)
Theorem temperature_band_decides_message (temp wind : Q)
    (w w' r r' : num) (t : num) :
  ((30 < temp)%Q \/ (temp < 18)%Q ->
   weather_message (Fin temp) w r = weather_message (Fin temp) w' r')
  /\ ((20 < wind)%Q ->
      weather_message t (Fin wind) r = weather_message t (Fin wind) r').
Proof.
  rewrite !weather_message_cascade.
  unfold FRIENDLY_CASCADE. cbn [first_match fst snd]. split.
  - intros [Hhot|Hcold].
    + destruct (exceeds (Fin temp) 38); [done|].
      by rewrite (proj2 (exceeds_lt temp 30) Hhot).
    + rewrite !exceeds_false by lra.
      destruct (below (Fin temp) 10); [done|].
      by rewrite (proj2 (below_lt temp 18) Hcold).
  - intros Hwind.
    destruct (exceeds t 38); [done|]. destruct (exceeds t 30); [done|].
    destruct (below t 10); [done|]. destruct (below t 18); [done|].
    destruct (exceeds (Fin wind) 40); [done|].
    by rewrite (proj2 (exceeds_lt wind 20) Hwind).
Qed.

(** ** Sections of the script *)

Lemma bind_emit {B} (w : widget) (k : unit -> St B) (page : list widget) :
  (emit w ≫= k) page = k tt (page ++ [w]).
Proof. reflexivity. Qed.

Lemma bind_lift_ok {A B} (r : result A) (a : A) (k : A -> St B)
    (page : list widget) :
  r = Ok a -> (lift r ≫= k) page = k a page.
Proof. by intros ->. Qed.

Lemma bind_lift_raise {A B} (r : result A) (e : exn) (k : A -> St B)
    (page : list widget) :
  r = Raise e -> (lift r ≫= k) page = (page, Raise e).
Proof. by intros ->. Qed.

Lemma bind_run_ok {A B} (m : St A) (a : A) (k : A -> St B)
    (page page' : list widget) :
  m page = (page', Ok a) -> (m ≫= k) page = k a page'.
Proof. intros H. unfold mbind, St_bind. by rewrite H. Qed.

Lemma bind_run_raise {A B} (m : St A) (e : exn) (k : A -> St B)
    (page page' : list widget) :
  m page = (page', Raise e) -> (m ≫= k) page = (page', Raise e).
Proof. intros H. unfold mbind, St_bind. by rewrite H. Qed.

Lemma theme_of_code_total (code : Z) :
  exists theme, theme_of_key (condition_key code) = Ok theme.
Proof.
  destruct (theme_of_code_documented code) as (theme & H & _). by exists theme.
Qed.

Lemma theme_and_header_run (geo : Geo) (current : Current)
    (page : list widget) :
  exists theme,
    theme_of_key (condition_key (theme_code current)) = Ok theme
    /\ theme_and_header geo current page
       = match cw_time current with
         | Some t =>
             (page ++ [ThemeStyle (c1 theme) (c2 theme) (c3 theme)]
                   ++ [HeaderBand (emoji theme)
                         (geo_name geo +:+ ", " +:+ geo_country geo
                            +:+ " — " +:+ name theme)
                         [Lit "Last updated: ";
                          Time "%a, %d %b %Y • %I:%M %p" t]],
              Ok tt)
         | None =>
             (page ++ [ThemeStyle (c1 theme) (c2 theme) (c3 theme)],
              Raise AttributeError)
         end.
Proof.
  destruct (theme_of_code_total (theme_code current)) as [theme Hth].
  exists theme. split; [done|]. unfold theme_and_header.
  rewrite (bind_run_ok _ theme _ page _
             (set_theme_from_code_run _ _ page Hth)).
  unfold local_time, header_band, emit, lift, mbind, St_bind.
  destruct (cw_time current); simpl; [|done]. by rewrite <- app_assoc.
Qed.

(** X11: a payload without a current timestamp never gets past the header:
    whatever else it holds, the run writes the style sheet of the theme and
    raises [AttributeError]; the fallback of the window to the first hourly
    point is never reached in a run. *)
Theorem run_without_current_time (geo : Geo) (data : Payload)
    (hours_ahead : Z) (show_table : bool) :
  cw_time (default no_current (current_weather data)) = None ->
  exists theme,
    run geo data hours_ahead show_table
    = ([ThemeStyle (c1 theme) (c2 theme) (c3 theme)], Raise AttributeError).
Proof.
  intros Htime. unfold run, app.
  destruct (theme_and_header_run geo
              (default no_current (current_weather data)) [])
    as (theme & _ & Hrun).
  rewrite Htime in Hrun. exists theme.
  by rewrite (bind_run_raise _ _ _ _ _ Hrun).
Qed.

Lemma run_without_current_time_witness :
  exists theme,
    run chennai no_time_payload 24 true
    = ([ThemeStyle (c1 theme) (c2 theme) (c3 theme)], Raise AttributeError).
Proof.
  apply (run_without_current_time chennai no_time_payload 24 true).
  reflexivity.
Defined.




(** X13: once [hr] is bound to a window without rows, every later section
    that reads it skips: the alerts, charts, rain-bar and table sections
    write nothing and raise nothing. *)
Theorem empty_window_sections_skip (hr : DataFrame) (current : Current)
    (daily : DataFrame) (show_table : bool) (page : list widget) :
  df_empty hr = true ->
  alerts_section (Some hr) current daily page = (page, Ok tt)
  /\ charts_section (Some hr) page = (page, Ok tt)
  /\ precip_section (Some hr) page = (page, Ok tt)
  /\ table_section show_table (Some hr) page = (page, Ok tt).
Proof.
  intros Hempty.
  unfold alerts_section, charts_section, precip_section, table_section,
    alerts, read_var, lift, mbind, St_bind.
  rewrite Hempty. simpl. by destruct show_table.
Qed.

Lemma empty_window_sections_skip_witness :
  alerts_section (Some empty_window) sample_current sample_daily []
  = ([], Ok tt)
  /\ charts_section (Some empty_window) [] = ([], Ok tt)
  /\ precip_section (Some empty_window) [] = ([], Ok tt)
  /\ table_section true (Some empty_window) [] = ([], Ok tt).
Proof.
  apply (empty_window_sections_skip empty_window sample_current sample_daily
           true []).
  reflexivity.
Defined.

Lemma df_iloc0_missing (df : DataFrame) (c : string) :
  df_empty df = false ->
  df_has c df = false ->
  df_iloc0 df c = Raise KeyError.
Proof.
  intros Hrows Hhas. unfold df_iloc0.
  destruct df as [|nc rest]; [done|]. unfold df_empty in Hrows.
  rewrite Hrows. by rewrite df_has_false_col.
Qed.

Lemma df_iloc0_present (df : DataFrame) (c : string) :
  df_wf df ->
  df_empty df = false ->
  df_has c df = true ->
  exists x, df_iloc0 df c = Ok x.
Proof.
  intros [_ Hlen] Hrows Hhas.
  destruct (df_has_col c df Hhas) as (col & Hcol & Hin).
  assert (nrows df <> 0%nat) as Hn.
  { destruct df; [done|]. simpl in Hrows. by apply Nat.eqb_neq. }
  rewrite Forall_forall in Hlen. specialize (Hlen _ Hin). simpl in Hlen.
  unfold df_iloc0. apply Nat.eqb_neq in Hn as Hn'. rewrite Hn', Hcol. simpl.
  unfold col_iloc0. destruct col as [[|t l]|[|v l]]; simpl in *;
    try lia; by eexists.
Qed.

Lemma daily_number_present (daily : DataFrame) (c : string)
    (page : list widget) :
  df_wf daily -> df_empty daily = false -> df_numeric c daily ->
  df_has c daily = true ->
  exists v, daily_number daily c page = (page, Ok v).
Proof.
  intros Hwf Hrows Hnum Hhas.
  destruct (df_iloc0_numeric daily c Hwf Hrows Hhas Hnum) as [v Hv].
  exists v. unfold daily_number, lift, mbind, St_bind. by rewrite Hv.
Qed.

Lemma daily_number_missing (daily : DataFrame) (c : string)
    (page : list widget) :
  df_empty daily = false -> df_has c daily = false ->
  daily_number daily c page = (page, Raise KeyError).
Proof.
  intros Hrows Hhas. unfold daily_number, lift, mbind, St_bind.
  by rewrite df_iloc0_missing.
Qed.

Lemma today_step_number {B} (daily : DataFrame) (c : string)
    (k : num -> St B) (page : list widget) :
  df_wf daily -> df_empty daily = false -> df_numeric c daily ->
  (df_has c daily = true /\ exists v, (daily_number daily c ≫= k) page = k v page)
  \/ (df_has c daily = false
      /\ (daily_number daily c ≫= k) page = (page, Raise KeyError)).
Proof.
  intros Hwf Hrows Hnum. destruct (df_has c daily) eqn:Hhas.
  - left. split; [done|].
    destruct (daily_number_present daily c page Hwf Hrows Hnum Hhas) as [v Hv].
    exists v. by apply bind_run_ok.
  - right. split; [done|]. apply (bind_run_raise _ _ _ _ page).
    by apply daily_number_missing.
Qed.

Lemma today_step_cell {B} (daily : DataFrame) (c : string)
    (k : cell -> St B) (page : list widget) :
  df_wf daily -> df_empty daily = false ->
  (df_has c daily = true
   /\ exists x, (lift (df_iloc0 daily c) ≫= k) page = k x page)
  \/ (df_has c daily = false
      /\ (lift (df_iloc0 daily c) ≫= k) page = (page, Raise KeyError)).
Proof.
  intros Hwf Hrows. destruct (df_has c daily) eqn:Hhas.
  - left. split; [done|].
    destruct (df_iloc0_present daily c Hwf Hrows Hhas) as [x Hx].
    exists x. by apply bind_lift_ok.
  - right. split; [done|]. apply bind_lift_raise.
    by apply df_iloc0_missing.
Qed.

Ltac step_number Hwf Hrows Hn :=
  match goal with
  | |- context [(daily_number ?daily ?c ≫= ?k) ?pg] =>
      let Hh := fresh "Hh" in
      let v := fresh "v" in
      let Hv := fresh "Hv" in
      destruct (today_step_number daily c k pg Hwf Hrows Hn)
        as [[Hh [v Hv]]|[Hh Hv]];
      rewrite Hv; clear Hv; cbv beta; rewrite ?bind_emit
  end.

Ltac step_cell Hwf Hrows :=
  match goal with
  | |- context [(lift (df_iloc0 ?daily ?c) ≫= ?k) ?pg] =>
      let Hh := fresh "Hh" in
      let x := fresh "x" in
      let Hx := fresh "Hx" in
      destruct (today_step_cell daily c k pg Hwf Hrows)
        as [[Hh [x Hx]]|[Hh Hx]];
      rewrite Hx; clear Hx; cbv beta; rewrite ?bind_emit
  end.

Ltac field_missing :=
  right; split;
  [ unfold TODAY_FIELDS;
    repeat first [by apply Exists_cons_hd | apply Exists_cons_tl]
  | by eexists ].

Lemma today_section_cases (daily : DataFrame) (page : list widget) :
  df_wf daily ->
  Forall (fun c => df_numeric c daily) TODAY_NUMBERS ->
  df_empty daily = false ->
  (Forall (fun c => df_has c daily = true) TODAY_FIELDS
   /\ exists page',
        today_section daily page = (page', Ok tt)
        /\ map widget_label page'
           = map widget_label page
             ++ ["subheader"; "High"; "Low"; "Feels Max"; "Sunrise";
                 "Sunset"; "UV Index Max"])
  \/ (Exists (fun c => df_has c daily = false) TODAY_FIELDS
      /\ exists page', today_section daily page = (page', Raise KeyError)).
Proof.
  intros Hwf Hnum Hrows.
  apply Forall_cons in Hnum as [N1 Hnum]. apply Forall_cons in Hnum as [N2 Hnum].
  apply Forall_cons in Hnum as [N3 Hnum]. apply Forall_cons in Hnum as [N4 _].
  unfold today_section, glass_metric. rewrite Hrows.
  change (negb false) with true. cbv iota. rewrite bind_emit.
  step_number Hwf Hrows N1; [|field_missing].
  step_number Hwf Hrows N2; [|field_missing].
  step_number Hwf Hrows N3; [|field_missing].
  step_cell Hwf Hrows; [|field_missing].
  step_cell Hwf Hrows; [|field_missing].
  step_number Hwf Hrows N4; [|field_missing].
  left. split; [by repeat constructor|].
  eexists. split; [reflexivity|].
  rewrite !map_app. simpl. by rewrite <- !app_assoc.
Qed.

(** X14: the Today cards are all or nothing.  Without rows in the daily
    frame the section writes nothing; with rows and the six fields it reads
    it writes its subheader and the six cards; with rows and any one of the
    six fields missing it raises [KeyError], although the alerts section
    guards the same [uv_index_max] with a test. *)
Theorem today_section_all_or_nothing (daily : DataFrame)
    (page : list widget) :
  df_wf daily ->
  Forall (fun c => df_numeric c daily) TODAY_NUMBERS ->
  (df_empty daily = true -> today_section daily page = (page, Ok tt))
  /\ (df_empty daily = false ->
      Forall (fun c => df_has c daily = true) TODAY_FIELDS ->
      snd (today_section daily page) = Ok tt
      /\ map widget_label (fst (today_section daily page))
         = map widget_label page
           ++ ["subheader"; "High"; "Low"; "Feels Max"; "Sunrise"; "Sunset";
               "UV Index Max"])
  /\ (df_empty daily = false ->
      Exists (fun c => df_has c daily = false) TODAY_FIELDS ->
      snd (today_section daily page) = Raise KeyError).
Proof.
  intros Hwf Hnum.
  split; [intros He; unfold today_section; by rewrite He|].
  split; intros Hrows Hfields;
    destruct (today_section_cases daily page Hwf Hnum Hrows)
      as [(Hall & page' & Hrun & Hlabels)|(Hex & page' & Hrun)];
    rewrite Hrun; simpl; try done.
  - exfalso. apply Exists_exists in Hex as (c & Hin & Hc).
    rewrite Forall_forall in Hfields. specialize (Hfields c Hin). congruence.
  - exfalso. apply Exists_exists in Hfields as (c & Hin & Hc).
    rewrite Forall_forall in Hall. specialize (Hall c Hin). congruence.
Qed.

Lemma sample_daily_typed :
  df_wf sample_daily
  /\ Forall (fun c => df_numeric c sample_daily) TODAY_NUMBERS.
Proof.
  split; [split; [compute_done|repeat constructor]|].
  repeat constructor; intros col H; vm_compute in H; injection H as <-;
    by eexists.
Defined.

Lemma today_section_all_or_nothing_witness :
  (df_empty sample_daily = true ->
   today_section sample_daily [] = ([], Ok tt))
  /\ (df_empty sample_daily = false ->
      Forall (fun c => df_has c sample_daily = true) TODAY_FIELDS ->
      snd (today_section sample_daily []) = Ok tt
      /\ map widget_label (fst (today_section sample_daily []))
         = map widget_label []
           ++ ["subheader"; "High"; "Low"; "Feels Max"; "Sunrise"; "Sunset";
               "UV Index Max"])
  /\ (df_empty sample_daily = false ->
      Exists (fun c => df_has c sample_daily = false) TODAY_FIELDS ->
      snd (today_section sample_daily []) = Raise KeyError).
Proof.
  exact (today_section_all_or_nothing sample_daily []
           (proj1 sample_daily_typed) (proj2 sample_daily_typed)).
Defined.

Lemma df_select_present (cols : list string) (df : DataFrame) :
  Forall (fun c => df_has c df = true) cols ->
  exists table,
    df_select cols df = Ok table
    /\ map fst table = cols
    /\ Forall (fun nc => df_col nc.1 df = Ok nc.2) table.
Proof.
  induction 1 as [|c cols Hc _ (table & Hsel & Hnames & Hcols)]; simpl.
  - by exists [].
  - destruct (df_has_col c df Hc) as (col & Hcol & _).
    rewrite Hcol, Hsel. simpl. exists ((c, col) :: table).
    split; [done|]. split; [simpl; by rewrite Hnames|]. by constructor.
Qed.

Lemma filter_all_true {A} (p : A -> bool) (l : list A) :
  Forall (fun x => p x = true) l -> List.filter p l = l.
Proof. induction 1 as [|x l Hx _ IH]; simpl; [done|]. by rewrite Hx, IH. Qed.

Lemma filter_some_false {A} (p : A -> bool) (l : list A) :
  Exists (fun x => p x = false) l ->
  (length (List.filter p l) < length l)%nat.
Proof.
  induction 1 as [x l Hx|x l _ IH]; simpl.
  - rewrite Hx. pose proof (filter_length_le p l). lia.
  - destruct (p x); simpl; lia.
Qed.

Lemma table_section_shown (hr : DataFrame) (times : list Z)
    (page : list widget) :
  df_empty hr = false ->
  df_col "time" hr = Ok (TimeCol times) ->
  Forall (fun c => df_has c hr = true) TABLE_COLUMNS ->
  exists table,
    table_section true (Some hr) page
    = (page ++ [Markdown "#### 🔎 Detailed Hourly Table"; Table table],
       Ok tt)
    /\ map fst table = TABLE_LABELS
    /\ Forall2 (fun c col => df_col c hr = Ok col)
         TABLE_COLUMNS (map snd table).
Proof.
  intros Hrows Htime Hall.
  unfold table_section, read_var. rewrite (bind_lift_ok _ hr) by done.
  rewrite Hrows. change (negb false) with true. cbv iota.
  rewrite (filter_all_true _ _ Hall).
  destruct (df_select_present _ hr Hall) as (table & Hsel & Hnames & Hcols).
  rewrite (bind_lift_ok _ table) by done.
  destruct table as [|[n1 k1] [|[n2 k2] [|[n3 k3] [|[n4 k4] [|[n5 k5]
    [|[n6 k6] [|? ?]]]]]]]; try discriminate Hnames.
  injection Hnames as -> -> -> -> -> ->.
  apply Forall_cons in Hcols as [H1 Hcols].
  apply Forall_cons in Hcols as [H2 Hcols].
  apply Forall_cons in Hcols as [H3 Hcols].
  apply Forall_cons in Hcols as [H4 Hcols].
  apply Forall_cons in Hcols as [H5 Hcols].
  apply Forall_cons in Hcols as [H6 _].
  cbn [fst snd] in H1, H2, H3, H4, H5, H6.
  assert (k1 = TimeCol times) as -> by congruence.
  exists (zip TABLE_LABELS
            [TimeCol times; k2; k3; k4; k5; k6]).
  split; [|split; [done|by repeat constructor]].
  unfold mbind, St_bind, lift, emit. simpl. by rewrite <- app_assoc.
Qed.

(** X15: the details table is all or nothing.  Switched off, the section
    does not even read [hr].  Switched on, over a window with rows whose
    [time] column holds timestamps, it shows the table when all six hourly
    fields are present: six columns under the six labels, in the order of
    the labels, with the cells of the window; and when any of the six is
    missing it raises [ValueError], six labels being assigned to fewer
    columns. *)
Theorem table_section_all_or_nothing (hr : DataFrame) (times : list Z)
    (page : list widget) :
  df_empty hr = false ->
  df_col "time" hr = Ok (TimeCol times) ->
  (forall unbound, table_section false unbound page = (page, Ok tt))
  /\ (Forall (fun c => df_has c hr = true) TABLE_COLUMNS ->
      exists table,
        table_section true (Some hr) page
        = (page ++ [Markdown "#### 🔎 Detailed Hourly Table"; Table table],
           Ok tt)
        /\ map fst table = TABLE_LABELS
        /\ Forall2 (fun c col => df_col c hr = Ok col)
             TABLE_COLUMNS (map snd table))
  /\ (Exists (fun c => df_has c hr = false) TABLE_COLUMNS ->
      table_section true (Some hr) page = (page, Raise ValueError)).
Proof.
  intros Hrows Htime. split; [done|].
  split; [by apply (table_section_shown hr times)|].
  unfold table_section, read_var. rewrite (bind_lift_ok _ hr) by done.
  rewrite Hrows. change (negb false) with true. cbv iota.
  intros Hmiss.
    pose proof (filter_some_false _ _ Hmiss) as Hshort.
    destruct (df_select_present
                (List.filter (fun c => df_has c hr) TABLE_COLUMNS) hr)
      as (table & Hsel & Hnames & _).
    { apply Forall_forall. intros c Hc. apply list_elem_of_In in Hc.
      by apply filter_In in Hc as [_ Hc]. }
    rewrite (bind_lift_ok _ table) by done.
    apply bind_lift_raise. unfold set_columns.
    assert (length table
            = length (List.filter (fun c => df_has c hr) TABLE_COLUMNS))
      as Hlen by (rewrite <- Hnames; by rewrite length_map).
    rewrite Hlen. change (length TABLE_LABELS) with 6%nat.
    change (length TABLE_COLUMNS) with 6%nat in Hshort.
    destruct (Nat.eqb_spec 6
                (length (List.filter (fun c => df_has c hr) TABLE_COLUMNS)));
      [lia|done].
Qed.

Lemma table_section_all_or_nothing_witness :
  (forall unbound, table_section false unbound [] = ([], Ok tt))
  /\ (Forall (fun c => df_has c sample_window = true) TABLE_COLUMNS ->
      exists table,
        table_section true (Some sample_window) []
        = ([] ++ [Markdown "#### 🔎 Detailed Hourly Table"; Table table],
           Ok tt)
        /\ map fst table = TABLE_LABELS
        /\ Forall2 (fun c col => df_col c sample_window = Ok col)
             TABLE_COLUMNS (map snd table))
  /\ (Exists (fun c => df_has c sample_window = false) TABLE_COLUMNS ->
      table_section true (Some sample_window) [] = ([], Raise ValueError)).
Proof.
  apply (table_section_all_or_nothing sample_window [43200; 46800; 50400] []);
    reflexivity.
Defined.

Lemma py_int_percent (q : Q) :
  (0 <= q)%Q ->
  (inject_Z (py_int q) <= q)%Q /\ (q < inject_Z (py_int q + 1))%Q
  /\ 0 <= py_int q.
Proof.
  intros Hq. unfold py_int. rewrite (proj2 (Qle_bool_iff 0 q) Hq).
  split; [apply Qfloor_le|]. split; [apply Qlt_floor|].
  change 0 with (Qfloor 0). by apply Qfloor_resp_le.
Qed.

Lemma precip_section_run (hr : DataFrame) (p : num) (rest : list num)
    (page : list widget) :
  df_empty hr = false ->
  df_col "precipitation_probability" hr = Ok (NumCol (p :: rest)) ->
  precip_section (Some hr) page
  = (page ++ [Markdown "#### ☔ Chance of Rain (next hour)";
              RainBar (match p with Fin q => py_int q | NaN => 0 end)],
     Ok tt).
Proof.
  intros Hrows Hcol. unfold precip_section, read_var.
  rewrite (bind_lift_ok _ hr) by done. rewrite Hrows.
  change (negb false) with true. rewrite (df_col_has _ _ _ Hcol).
  assert (df_iloc0 hr "precipitation_probability" = Ok (CN p)) as Hcell.
  { unfold df_iloc0. destruct hr as [|nc hr]; [done|].
    unfold df_empty in Hrows. by rewrite Hrows, Hcol. }
  cbn [andb]. rewrite (bind_lift_ok _ (CN p)) by done.
  rewrite (bind_lift_ok _ p) by done.
  unfold emit, mbind, St_bind. by rewrite <- app_assoc.
Qed.

(** X16: the rain bar shows the first precipitation probability of the
    window cut down to a whole number: a missing value gives 0, a value
    from 0 to 100 gives the integer [n] with [n <= value < n + 1], itself
    from 0 to 100; without the column the section writes nothing. *)
Theorem precip_section_bar (hr : DataFrame) (page : list widget) :
  df_empty hr = false ->
  (df_has "precipitation_probability" hr = false ->
   precip_section (Some hr) page = (page, Ok tt))
  /\ (forall p rest,
        df_col "precipitation_probability" hr = Ok (NumCol (p :: rest)) ->
        exists n,
          precip_section (Some hr) page
          = (page ++ [Markdown "#### ☔ Chance of Rain (next hour)";
                      RainBar n], Ok tt)
          /\ (p = NaN -> n = 0)
          /\ (forall q,
                p = Fin q -> (0 <= q)%Q -> (q <= 100)%Q ->
                0 <= n <= 100
                /\ (inject_Z n <= q)%Q /\ (q < inject_Z (n + 1))%Q)).
Proof.
  intros Hrows. split.
  - intros Hno. unfold precip_section, read_var.
    rewrite (bind_lift_ok _ hr) by done. by rewrite Hrows, Hno.
  - intros p rest Hcol. eexists.
    split; [by apply (precip_section_run hr p rest)|].
    split; [by intros ->|].
    intros q -> Hlo Hhi.
    destruct (py_int_percent q Hlo) as (Hfloor & Hnext & Hpos).
    split; [|done]. split; [done|].
    assert (inject_Z (py_int q) <= inject_Z 100)%Q as Hle
      by (eapply Qle_trans; [exact Hfloor|exact Hhi]).
    by rewrite <- Zle_Qle in Hle.
Qed.

Lemma precip_section_bar_witness :
  (df_has "precipitation_probability" sample_window = false ->
   precip_section (Some sample_window) [] = ([], Ok tt))
  /\ (forall p rest,
        df_col "precipitation_probability" sample_window
        = Ok (NumCol (p :: rest)) ->
        exists n,
          precip_section (Some sample_window) []
          = ([] ++ [Markdown "#### ☔ Chance of Rain (next hour)";
                    RainBar n], Ok tt)
          /\ (p = NaN -> n = 0)
          /\ (forall q,
                p = Fin q -> (0 <= q)%Q -> (q <= 100)%Q ->
                0 <= n <= 100
                /\ (inject_Z n <= q)%Q /\ (q < inject_Z (n + 1))%Q)).
Proof.
  apply (precip_section_bar sample_window []). reflexivity.
Defined.

(** ** A run on a payload with every field *)












(** ** The top of the script *)

Lemma geocode_city_none (r : Response GeoBody) :
  status_code r <> 200
  \/ results (json r) = None \/ results (json r) = Some [] ->
  geocode_city r = Ok None.
Proof.
  unfold geocode_city. intros [Hs|[Hr|Hr]].
  - by destruct (Z.eqb_spec (status_code r) 200).
  - rewrite Hr. by destruct (status_code r =? 200).
  - rewrite Hr. by destruct (status_code r =? 200).
Qed.

(** X18: when the geocoding service answers with a status other than 200,
    or with no results, the page is the title and the one "city not found"
    error, the run stops, and the forecast service plays no part: nothing
    of the dashboard is written. *)
Theorem main_city_not_found (c : Controls)
    (geocoding_api : string -> Response GeoBody)
    (forecast_api : Q -> Q -> Response Payload) :
  picked_city c <> "" ->
  status_code (geocoding_api (picked_city c)) <> 200
  \/ results (json (geocoding_api (picked_city c))) = None
  \/ results (json (geocoding_api (picked_city c))) = Some [] ->
  main c geocoding_api forecast_api
  = ([Title PAGE_TITLE; ErrorBox CITY_NOT_FOUND None], Stopped).
Proof.
  intros Hcity Hnone. unfold main.
  apply String.eqb_neq in Hcity. rewrite Hcity.
  by rewrite (geocode_city_none _ Hnone).
Qed.

Lemma main_city_not_found_witness :
  main unknown_city_controls sample_geocoding sample_forecast
  = ([Title PAGE_TITLE; ErrorBox CITY_NOT_FOUND None], Stopped).
Proof.
  apply (main_city_not_found unknown_city_controls sample_geocoding
           sample_forecast).
  - compute_done.
  - right. left. reflexivity.
Defined.

(** X19: when the city is found and the forecast service answers with a
    status from 400 to 599, the page is the title and the one "failed to
    fetch" error quoting that status, and the run stops before any widget
    of the dashboard, whatever the body of the response holds. *)
Theorem main_fetch_failed (c : Controls)
    (geocoding_api : string -> Response GeoBody)
    (forecast_api : Q -> Q -> Response Payload) (geo : Location) :
  picked_city c <> "" ->
  geocode_city (geocoding_api (picked_city c)) = Ok (Some geo) ->
  400 <= status_code (forecast_api (latitude geo) (longitude geo)) < 600 ->
  main c geocoding_api forecast_api
  = ([Title PAGE_TITLE;
      ErrorBox FETCH_FAILED
        (Some (status_code (forecast_api (latitude geo) (longitude geo))))],
     Stopped).
Proof.
  intros Hcity Hgeo Hstatus. unfold main, fetch_weather.
  apply String.eqb_neq in Hcity. rewrite Hcity, Hgeo.
  destruct (Z.leb_spec 400
              (status_code (forecast_api (latitude geo) (longitude geo))));
    [|lia].
  destruct (Z.ltb_spec
              (status_code (forecast_api (latitude geo) (longitude geo))) 600);
    [|lia].
  done.
Qed.

Lemma main_fetch_failed_witness :
  main default_controls sample_geocoding failing_forecast
  = ([Title PAGE_TITLE; ErrorBox FETCH_FAILED (Some 503)], Stopped).
Proof.
  apply (main_fetch_failed default_controls sample_geocoding failing_forecast
           (mkLocation (1308 # 100) (8027 # 100) (mkGeo "Chennai" "India"))).
  - compute_done.
  - reflexivity.
  - simpl. lia.
Defined.

(** X20: a quick pick overrides the typed city, the later button winning
    when several are pressed; with any button pressed the city is one of
    the four picks and the run goes on to the geocoding request, and only
    with no button pressed and nothing typed does it stop at the prompt. *)
Theorem quick_picks_override (c : Controls)
    (geocoding_api : string -> Response GeoBody)
    (forecast_api : Q -> Q -> Response Payload) :
  (button_chennai c = true -> picked_city c = "Chennai")
  /\ (button_chennai c = false -> button_bengaluru c = true ->
      picked_city c = "Bengaluru")
  /\ (button_chennai c = false -> button_bengaluru c = false ->
      button_mumbai c = true -> picked_city c = "Mumbai")
  /\ (button_chennai c = false -> button_bengaluru c = false ->
      button_mumbai c = false -> button_delhi c = true ->
      picked_city c = "Delhi")
  /\ (button_delhi c || button_mumbai c || button_bengaluru c
      || button_chennai c = true ->
      picked_city c ∈ ["Delhi"; "Mumbai"; "Bengaluru"; "Chennai"]
      /\ main c geocoding_api forecast_api
         <> ([Title PAGE_TITLE; Widget (Info CITY_PROMPT)], Stopped))
  /\ (button_delhi c || button_mumbai c || button_bengaluru c
      || button_chennai c = false ->
      picked_city c = text_input c
      /\ (text_input c = "" ->
          main c geocoding_api forecast_api
          = ([Title PAGE_TITLE; Widget (Info CITY_PROMPT)], Stopped))).
Proof.
  assert (picked_city c
          = if button_chennai c then "Chennai"
            else if button_bengaluru c then "Bengaluru"
            else if button_mumbai c then "Mumbai"
            else if button_delhi c then "Delhi"
            else text_input c) as Hpick.
  { unfold picked_city.
    by destruct (button_chennai c), (button_bengaluru c), (button_mumbai c),
      (button_delhi c). }
  split; [intros H; by rewrite Hpick, H|].
  split; [intros H1 H2; by rewrite Hpick, H1, H2|].
  split; [intros H1 H2 H3; by rewrite Hpick, H1, H2, H3|].
  split; [intros H1 H2 H3 H4; by rewrite Hpick, H1, H2, H3, H4|].
  split.
  - intros Hany.
    assert (picked_city c ∈ ["Delhi"; "Mumbai"; "Bengaluru"; "Chennai"])
      as Hin.
    { rewrite Hpick.
      destruct (button_chennai c), (button_bengaluru c), (button_mumbai c),
        (button_delhi c); try discriminate Hany; set_solver. }
    split; [exact Hin|]. unfold main.
    destruct (String.eqb_spec (picked_city c) "") as [Heq|Hne].
    { rewrite Heq in Hin. exfalso. revert Hin. compute_done. }
    destruct (geocode_city (geocoding_api (picked_city c))) as [[geo|]|e];
      [|done..].
    destruct (fetch_weather _); [|done].
    destruct (run _ _ _ _) as [body r]. done.
  - intros Hnone.
    assert (picked_city c = text_input c) as Htext.
    { rewrite Hpick.
      destruct (button_chennai c), (button_bengaluru c), (button_mumbai c),
        (button_delhi c); try discriminate Hnone; done. }
    split; [done|]. intros Hempty. unfold main.
    by rewrite Htext, Hempty.
Qed.

(** A sunrise given as a number is read as nanoseconds since the epoch:
    21600 is within the first second of the first day, and a missing value
    gives the dash. *)
Example fmt_time_of_number :
  fmt_time (CN (Fin 21600)) = [Time "%I:%M %p" 0]
  /\ fmt_time (CN (Fin 61000000000)) = [Time "%I:%M %p" 61]
  /\ fmt_time (CN NaN) = [Lit "–"].
Proof. repeat split; reflexivity. Qed.

(** An empty text box with the Mumbai and Bengaluru buttons both pressed. *)
Example quick_picks_later_button :
  picked_city (mkControls "" 24 true false true true false) = "Bengaluru".
Proof. reflexivity. Qed.


Lemma geocode_city_raises (r : Response GeoBody) (e : exn) :
  geocode_city r = Raise e -> e = KeyError /\ status_code r = 200.
Proof.
  unfold geocode_city. destruct (Z.eqb_spec (status_code r) 200); [|done].
  destruct (results (json r)) as [[|res rest]|]; try done.
  destruct (res_latitude res), (res_longitude res), (res_name res); simpl;
    by intros [= <-].
Qed.

(** X21: the location comes from the first result alone: further results
    change nothing; a location is returned only for status 200 and a
    non-empty result list, with the latitude, longitude and name of the
    first result and its country, or the empty string when it names none;
    and the only exception is the [KeyError] of a first result without
    latitude, longitude or name. *)
Theorem geocode_city_first_result :
  (forall status res rest rest',
     geocode_city (mkResponse status (mkGeoBody (Some (res :: rest))))
     = geocode_city (mkResponse status (mkGeoBody (Some (res :: rest')))))
  /\ (forall r loc,
        geocode_city r = Ok (Some loc) ->
        status_code r = 200
        /\ exists res rest,
             results (json r) = Some (res :: rest)
             /\ res_latitude res = Some (latitude loc)
             /\ res_longitude res = Some (longitude loc)
             /\ res_name res = Some (geo_name (place loc))
             /\ geo_country (place loc) = default "" (res_country res))
  /\ (forall r e,
        geocode_city r = Raise e -> e = KeyError /\ status_code r = 200).
Proof.
  split; [done|]. split; [|exact geocode_city_raises].
  intros r loc. unfold geocode_city.
  destruct (Z.eqb_spec (status_code r) 200); [|done].
  destruct (results (json r)) as [[|res rest]|] eqn:Hres; try done.
  destruct (res_latitude res) eqn:Hlat, (res_longitude res) eqn:Hlon,
    (res_name res) eqn:Hname; simpl; try done.
  intros [= <-]. split; [done|]. by exists res, rest.
Qed.

(** X22: a run ends in one of five ways, and never shows an error box
    together with a widget of the dashboard: the prompt for a city (no city
    picked), the "city not found" error, the "failed to fetch" error with a
    status from 400 to 599, a [KeyError] right after the title (a first
    geocoding result without latitude, longitude or name), or the title
    followed by what the dashboard writes for the fetched payload, the
    place, the slider and the checkbox. *)
Theorem main_outcomes (c : Controls)
    (geocoding_api : string -> Response GeoBody)
    (forecast_api : Q -> Q -> Response Payload) :
  (picked_city c = ""
   /\ main c geocoding_api forecast_api
      = ([Title PAGE_TITLE; Widget (Info CITY_PROMPT)], Stopped))
  \/ main c geocoding_api forecast_api
     = ([Title PAGE_TITLE; ErrorBox CITY_NOT_FOUND None], Stopped)
  \/ (exists status,
        400 <= status < 600
        /\ main c geocoding_api forecast_api
           = ([Title PAGE_TITLE; ErrorBox FETCH_FAILED (Some status)],
              Stopped))
  \/ main c geocoding_api forecast_api
     = ([Title PAGE_TITLE], Ended (Raise KeyError))
  \/ (exists geo,
        geocode_city (geocoding_api (picked_city c)) = Ok (Some geo)
        /\ let data := json (forecast_api (latitude geo) (longitude geo)) in
           let dashboard := run (place geo) data (slider c) (checkbox c) in
           main c geocoding_api forecast_api
           = (Title PAGE_TITLE :: map Widget (fst dashboard),
              Ended (snd dashboard))).
Proof.
  unfold main.
  destruct (String.eqb_spec (picked_city c) "") as [Heq|Hne]; [by left|].
  right.
  destruct (geocode_city (geocoding_api (picked_city c)))
    as [[geo|]|e] eqn:Hgeo.
  - unfold fetch_weather.
    destruct (Z.leb_spec 400
                (status_code (forecast_api (latitude geo) (longitude geo))));
      simpl.
    + destruct (Z.ltb_spec
                  (status_code (forecast_api (latitude geo) (longitude geo)))
                  600).
      * right. left.
        exists (status_code (forecast_api (latitude geo) (longitude geo))).
        split; [lia|done].
      * do 3 right. exists geo. split; [done|]. simpl.
        by destruct (run _ _ _ _).
    + do 3 right. exists geo. split; [done|]. simpl.
      by destruct (run _ _ _ _).
  - by left.
  - apply geocode_city_raises in Hgeo as [-> _]. do 2 right. by left.
Qed.

(** The default controls against the sample services: the title, then the
    26 widgets of the dashboard. *)
Example main_sample_run :
  snd (main default_controls sample_geocoding sample_forecast) = Ended (Ok tt)
  /\ length (fst (main default_controls sample_geocoding sample_forecast))
     = 27%nat.
Proof. split; reflexivity. Qed.
